(** * Botnet guard worker: admission control at the edge

    A shallow embedding of the worker ([src/worker.js]) and of the in-memory
    store of its test suite ([MockKV]), and the properties of the decision
    engine and of the administrative API proved about them.

    Conventions of the embedding.
    - A JavaScript string is a [string] whose characters are its code units;
      the texts handled here (paths, addresses, header values, tokens) stay
      below code unit 256, and the white space and letter cases of that range
      are treated as JavaScript treats them.
    - A JavaScript number is a [Z]; [NaN] is the [None] of an [option Z].  The
      counters, scores, weights and TTLs of the worker are integers, and the
      arithmetic of the worker on them is exact as long as they stay in the
      safe range of doubles (absolute value at most 2^53).
    - An [async] function is a function of the store that returns how it
      settled, a value or an exception, together with the store it leaves.
    - [Date.now()] is read once per request and passed as [now]
      (milliseconds). *)

From Stdlib Require Import ZArith String Ascii List Bool Lia.
From Stdlib Require Import DecimalString DecimalPos DecimalZ.
From stdpp Require Import base option gmap strings list.

Set Warnings "-register-all".
Local Open Scope string_scope.
Local Open Scope Z_scope.

(* ===================================================================== *)
(** ** Strings of the platform *)
(* ===================================================================== *)

Module Js.

(** [s.startsWith(p)] *)
Definition startsWith (s p : string) : bool := String.prefix p s.

(** [s.includes(p)]: [p] occurs in [s] as a substring. *)
Fixpoint includes (s p : string) : bool :=
  String.prefix p s ||
  match s with
  | EmptyString => false
  | String _ rest => includes rest p
  end.

(** White space of [trim] and of the numeric parsers, below code unit 256:
    TAB, LF, VT, FF, CR, SP and NBSP. *)
Definition isWhiteSpace (c : ascii) : bool :=
  let n := nat_of_ascii c in
  ((9 <=? n) && (n <=? 13) || (n =? 32) || (n =? 160))%nat.

Fixpoint trimStart (s : string) : string :=
  match s with
  | String c rest => if isWhiteSpace c then trimStart rest else s
  | EmptyString => EmptyString
  end.

Fixpoint trimEnd (s : string) : string :=
  match s with
  | EmptyString => EmptyString
  | String c rest =>
      match trimEnd rest with
      | EmptyString => if isWhiteSpace c then EmptyString else String c EmptyString
      | rest' => String c rest'
      end
  end.

(** [s.trim()] *)
Definition trim (s : string) : string := trimEnd (trimStart s).

(** Lower case of one code unit: A-Z, and the Latin-1 capitals
    U+00C0..U+00DE apart from the multiplication sign U+00D7. *)
Definition lowerChar (c : ascii) : ascii :=
  let n := nat_of_ascii c in
  if ((65 <=? n) && (n <=? 90) ||
      (192 <=? n) && (n <=? 222) && negb (n =? 215))%nat
  then ascii_of_nat (n + 32) else c.

(** [s.toLowerCase()] *)
Fixpoint toLowerCase (s : string) : string :=
  match s with
  | EmptyString => EmptyString
  | String c rest => String (lowerChar c) (toLowerCase rest)
  end.

(** [s.split(sep)] for a separator of one character: never empty. *)
Fixpoint split (sep : ascii) (s : string) : list string :=
  match s with
  | EmptyString => [EmptyString]
  | String c rest =>
      if Ascii.eqb c sep then EmptyString :: split sep rest
      else match split sep rest with
           | piece :: pieces => String c piece :: pieces
           | [] => [String c EmptyString]
           end
  end.

(** [s.slice(n)] for [0 <= n] *)
Fixpoint slice (n : nat) (s : string) : string :=
  match n, s with
  | O, _ => s
  | S n', String _ rest => slice n' rest
  | S _, EmptyString => EmptyString
  end.

(** A string is falsy exactly when it is empty. *)
Definition truthy (s : string) : bool :=
  match s with EmptyString => false | _ => true end.

Definition isDigit (c : ascii) : bool :=
  let n := nat_of_ascii c in ((48 <=? n) && (n <=? 57))%nat.

Definition isHexDigit (c : ascii) : bool :=
  let n := nat_of_ascii c in
  ((48 <=? n) && (n <=? 57) || (65 <=? n) && (n <=? 70) ||
   (97 <=? n) && (n <=? 102))%nat.

Fixpoint forallb_string (p : ascii -> bool) (s : string) : bool :=
  match s with
  | EmptyString => true
  | String c rest => p c && forallb_string p rest
  end.

(** The longest prefix of decimal digits. *)
Fixpoint digitsPrefix (s : string) : string :=
  match s with
  | String c rest => if isDigit c then String c (digitsPrefix rest) else EmptyString
  | EmptyString => EmptyString
  end.

(** [Number.parseInt(s, 10)]: leading white space is skipped, one sign is
    accepted, the longest run of digits is read and what follows it is
    ignored; no digit gives [NaN].  The integer read is kept as it is written;
    the platform keeps the nearest number, which is the same integer up to
    [Number.MAX_SAFE_INTEGER] in absolute value. *)
Definition parseInt (s : string) : option Z :=
  let s1 := trimStart s in
  let '(neg, s2) :=
    match s1 with
    | String "-" rest => (true, rest)
    | String "+" rest => (false, rest)
    | _ => (false, s1)
    end in
  match NilZero.uint_of_string (digitsPrefix s2) with
  | None => None
  | Some digits => Some (if neg : bool then - Z.of_uint digits else Z.of_uint digits)
  end.

(** [String(n)] for an integer [n] that is written without an exponent
    (below 1e21 in absolute value). *)
Definition ofNumber (n : Z) : string := NilZero.string_of_int (Z.to_int n).

End Js.

(* ===================================================================== *)
(** ** JSON values, [JSON.stringify], [toISOString] *)
(* ===================================================================== *)

(** The values [JSON.parse] returns and [JSON.stringify] takes.  An object
    keeps its properties in insertion order. *)
Inductive json : Type :=
  | JNull
  | JBool (b : bool)
  | JNum (n : Z)
  | JStr (s : string)
  | JArr (items : list json)
  | JObj (props : list (string * json)).

(** Truthiness of a value, as [if (v)], [!v] and [Boolean(v)] see it. *)
Definition truthy (v : json) : bool :=
  match v with
  | JNull => false
  | JBool b => b
  | JNum n => negb (n =? 0)
  | JStr s => Js.truthy s
  | JArr _ | JObj _ => true
  end.

(** [v.name] for a value that may be [null]: [None] is [undefined].  Only
    objects carry the properties read by the worker ([ip], [reason],
    [ttlSeconds]); arrays, strings, numbers and booleans have none of them. *)
Fixpoint lookupProp (name : string) (props : list (string * json)) : option json :=
  match props with
  | [] => None
  | (k, v) :: rest => if String.eqb k name then Some v else lookupProp name rest
  end.

Definition prop (v : json) (name : string) : option json :=
  match v with
  | JObj props => lookupProp name props
  | _ => None
  end.

Fixpoint joinWith (sep : string) (pieces : list string) : string :=
  match pieces with
  | [] => ""
  | [piece] => piece
  | piece :: rest => piece ++ sep ++ joinWith sep rest
  end.

(** [String(v)], the text [Number.parseInt] reads when it is handed a value
    that is not a string. *)
Fixpoint toString (v : json) : string :=
  match v with
  | JNull => "null"
  | JBool true => "true"
  | JBool false => "false"
  | JNum n => Js.ofNumber n
  | JStr s => s
  | JArr items =>
      joinWith ","
        (map (fun item => match item with JNull => "" | _ => toString item end) items)
  | JObj _ => "[object Object]"
  end.

Definition hexDigit (n : nat) : ascii :=
  ascii_of_nat (if (n <? 10)%nat then 48 + n else 87 + n).

Definition doubleQuote : ascii := ascii_of_nat 34.
Definition backslash : ascii := ascii_of_nat 92.

Definition escaped (c : ascii) : string := String backslash (String c "").

(** One code unit inside a JSON string literal. *)
Definition quoteChar (c : ascii) : string :=
  let n := nat_of_ascii c in
  if (n =? 34)%nat then escaped doubleQuote
  else if (n =? 92)%nat then escaped backslash
  else if (n =? 8)%nat then escaped "b"
  else if (n =? 9)%nat then escaped "t"
  else if (n =? 10)%nat then escaped "n"
  else if (n =? 12)%nat then escaped "f"
  else if (n =? 13)%nat then escaped "r"
  else if (n <? 32)%nat
       then escaped "u" ++ "00" ++
            String (hexDigit (n / 16)) (String (hexDigit (n mod 16)) "")
  else String c "".

Fixpoint quoteChars (s : string) : string :=
  match s with
  | EmptyString => ""
  | String c rest => quoteChar c ++ quoteChars rest
  end.

Definition quote (s : string) : string :=
  String doubleQuote (quoteChars s ++ String doubleQuote "").

(** [JSON.stringify(v)] *)
Fixpoint JSON_stringify (v : json) : string :=
  match v with
  | JNull => "null"
  | JBool true => "true"
  | JBool false => "false"
  | JNum n => Js.ofNumber n
  | JStr s => quote s
  | JArr items => "[" ++ joinWith "," (map JSON_stringify items) ++ "]"
  | JObj props =>
      "{" ++ joinWith ","
               (map (fun kv => quote (fst kv) ++ ":" ++ JSON_stringify (snd kv)) props)
          ++ "}"
  end.

(** Decimal digits of [n], padded with zeros on the left to [width]. *)
Fixpoint padStart (width : nat) (s : string) : string :=
  if (String.length s <? width)%nat
  then match width with
       | O => s
       | S w => "0" ++ padStart w s
       end
  else s.

Definition pad (width : nat) (n : Z) : string := padStart width (Js.ofNumber n).

(** [new Date(ms).toISOString()]: the proleptic Gregorian date and the UTC
    time of day of the instant [ms] milliseconds after the epoch. *)
Definition toISOString (ms : Z) : string :=
  let day := ms / 86400000 in
  let msOfDay := ms mod 86400000 in
  let z := day + 719468 in
  let era := z / 146097 in
  let doe := z - era * 146097 in
  let yoe := (doe - doe / 1460 + doe / 36524 - doe / 146096) / 365 in
  let doy := doe - (365 * yoe + yoe / 4 - yoe / 100) in
  let mp := (5 * doy + 2) / 153 in
  let d := doy - (153 * mp + 2) / 5 + 1 in
  let m := if mp <? 10 then mp + 3 else mp - 9 in
  let y := yoe + era * 400 + (if m <=? 2 then 1 else 0) in
  let year :=
    if (0 <=? y) && (y <=? 9999) then pad 4 y
    else (if y <? 0 then "-" else "+") ++ pad 6 (Z.abs y) in
  year ++ "-" ++ pad 2 m ++ "-" ++ pad 2 d ++ "T" ++
  pad 2 (msOfDay / 3600000) ++ ":" ++ pad 2 (msOfDay / 60000 mod 60) ++ ":" ++
  pad 2 (msOfDay / 1000 mod 60) ++ "." ++ pad 3 (msOfDay mod 1000) ++ "Z".

(** [JSON.parse] is the platform's: [None] stands for the [SyntaxError] it
    throws on a text that is not JSON. *)
Class JsonParser := { JSON_parse : string -> option json }.

(* ===================================================================== *)
(** ** Requests, responses, environment, configuration *)
(* ===================================================================== *)

(** [new URL(request.url)]: the path and the query parameters. *)
Record URL := {
  pathname : string;
  searchParams : list (string * string)
}.

(** [url.searchParams.get(name)]: the first value of that name. *)
Fixpoint searchParams_get (name : string) (params : list (string * string)) : option string :=
  match params with
  | [] => None
  | (k, v) :: rest => if String.eqb k name then Some v else searchParams_get name rest
  end.

(** The three headers the worker reads; [None] is the [null] that
    [headers.get] returns for a header that is not there. *)
Record Headers := {
  cf_connecting_ip : option string;
  user_agent : option string;
  authorization : option string
}.

(** [body] is the text of the body, [None] when the request has none. *)
Record Request := {
  method : string;
  url : URL;
  headers : Headers;
  body : option string
}.

(** A response is either the outcome of the global [fetch(request)], that
    is whatever the origin makes of the forwarded request, or the JSON
    response built by [jsonResponse(body, status)], kept here as the value
    that is serialised. *)
Inductive Response : Type :=
  | originFetch (request : Request)
  | jsonResponse (payload : json) (status : Z).

(** The bindings and variables of the worker; [None] is [undefined]. *)
Record Env (K : Type) := {
  BOTNET_KV : option K;
  BOTNET_ADMIN_TOKEN : option string;
  RATE_WINDOW_SECONDS : option string;
  RATE_MAX_REQUESTS : option string;
  BURST_WINDOW_SECONDS : option string;
  BURST_MAX_REQUESTS : option string;
  BLOCK_TTL_SECONDS : option string;
  PROTECTED_PATH_PREFIXES : option string;
  SUSPICIOUS_PATH_PATTERNS : option string;
  BAD_USER_AGENT_PATTERNS : option string;
  BOT_SCORE_TTL_SECONDS : option string;
  BOT_SCORE_BLOCK_THRESHOLD : option string;
  BOT_SCORE_PATH_WEIGHT : option string;
  BOT_SCORE_USER_AGENT_WEIGHT : option string;
  ADMIN_PATH_PREFIX : option string;
  ALLOWLIST_IPS : option string
}.

Arguments BOTNET_KV {K} _.
Arguments BOTNET_ADMIN_TOKEN {K} _.
Arguments RATE_WINDOW_SECONDS {K} _.
Arguments RATE_MAX_REQUESTS {K} _.
Arguments BURST_WINDOW_SECONDS {K} _.
Arguments BURST_MAX_REQUESTS {K} _.
Arguments BLOCK_TTL_SECONDS {K} _.
Arguments PROTECTED_PATH_PREFIXES {K} _.
Arguments SUSPICIOUS_PATH_PATTERNS {K} _.
Arguments BAD_USER_AGENT_PATTERNS {K} _.
Arguments BOT_SCORE_TTL_SECONDS {K} _.
Arguments BOT_SCORE_BLOCK_THRESHOLD {K} _.
Arguments BOT_SCORE_PATH_WEIGHT {K} _.
Arguments BOT_SCORE_USER_AGENT_WEIGHT {K} _.
Arguments ADMIN_PATH_PREFIX {K} _.
Arguments ALLOWLIST_IPS {K} _.

Record Config := {
  rateWindowSeconds : Z;
  rateMaxRequests : Z;
  burstWindowSeconds : Z;
  burstMaxRequests : Z;
  blockTtlSeconds : Z;
  protectedPathPrefixes : list string;
  adminPathPrefix : string;
  allowlistIps : gset string;
  suspiciousPathPatterns : list string;
  badUserAgentPatterns : list string;
  botScoreTtlSeconds : Z;
  botScoreBlockThreshold : Z;
  botScorePathWeight : Z;
  botScoreUserAgentWeight : Z
}.

Module DEFAULTS.
Definition rateWindowSeconds : Z := 60.
Definition rateMaxRequests : Z := 180.
Definition burstWindowSeconds : Z := 10.
Definition burstMaxRequests : Z := 30.
Definition blockTtlSeconds : Z := 3600.
Definition protectedPathPrefixes : list string := ["*"].
Definition adminPathPrefix : string := "/__botnet".
Definition suspiciousPathPatterns : list string :=
  ["/wp-login.php"; "/xmlrpc.php"; "/wp-admin"; "/.env"; "/cgi-bin"; "/boaform"].
Definition badUserAgentPatterns : list string :=
  ["python-requests"; "curl/"; "wget/"; "sqlmap"; "masscan"; "nmap"; "zgrab";
   "go-http-client"].
Definition botScoreTtlSeconds : Z := 900.
Definition botScoreBlockThreshold : Z := 6.
Definition botScorePathWeight : Z := 3.
Definition botScoreUserAgentWeight : Z := 2.
End DEFAULTS.

Definition BLOCK_KEY_PREFIX : string := "blocked:".
Definition COUNTER_KEY_PREFIX : string := "count:".
Definition BOT_SCORE_KEY_PREFIX : string := "score:".

(** [value || fallback] on a string that may be [undefined] or [null]. *)
Definition orElse (value : option string) (fallback : string) : string :=
  match value with
  | Some s => if Js.truthy s then s else fallback
  | None => fallback
  end.

(** [value] is the text [Number.parseInt] reads; [None] is [undefined],
    which it reads as [NaN]. *)
Definition parsePositiveInteger (value : option string) (fallback : Z) : Z :=
  match value ≫= Js.parseInt with
  | None => fallback
  | Some parsed => if parsed <=? 0 then fallback else parsed
  end.

Definition parseCsvList (value : option string) : list string :=
  match value with
  | None => []
  | Some v =>
      if negb (Js.truthy v) then []
      else List.filter Js.truthy (map Js.trim (Js.split "," v))
  end.

Definition normalizePathPrefix (prefix : string) : string :=
  if negb (Js.truthy prefix) then "/"
  else if String.eqb prefix "*" then "*"
  else if Js.startsWith prefix "/" then prefix else "/" ++ prefix.

Definition parsePathPrefixes (value : option string) : list string :=
  match value with
  | None => DEFAULTS.protectedPathPrefixes
  | Some v =>
      if negb (Js.truthy v) then DEFAULTS.protectedPathPrefixes
      else
        match map normalizePathPrefix (parseCsvList value) with
        | [] => DEFAULTS.protectedPathPrefixes
        | parsed => parsed
        end
  end.

Definition parseStringPatterns (value : option string) (fallback : list string) : list string :=
  match value with
  | None => fallback
  | Some v =>
      if negb (Js.truthy v) then fallback
      else
        match map Js.toLowerCase (parseCsvList value) with
        | [] => fallback
        | parsed => parsed
        end
  end.

Definition readConfig {K : Type} (env : Env K) : Config := {|
  rateWindowSeconds := parsePositiveInteger (RATE_WINDOW_SECONDS env) DEFAULTS.rateWindowSeconds;
  rateMaxRequests := parsePositiveInteger (RATE_MAX_REQUESTS env) DEFAULTS.rateMaxRequests;
  burstWindowSeconds := parsePositiveInteger (BURST_WINDOW_SECONDS env) DEFAULTS.burstWindowSeconds;
  burstMaxRequests := parsePositiveInteger (BURST_MAX_REQUESTS env) DEFAULTS.burstMaxRequests;
  blockTtlSeconds := parsePositiveInteger (BLOCK_TTL_SECONDS env) DEFAULTS.blockTtlSeconds;
  protectedPathPrefixes := parsePathPrefixes (PROTECTED_PATH_PREFIXES env);
  adminPathPrefix := normalizePathPrefix (orElse (ADMIN_PATH_PREFIX env) DEFAULTS.adminPathPrefix);
  allowlistIps := list_to_set (parseCsvList (ALLOWLIST_IPS env));
  suspiciousPathPatterns :=
    parseStringPatterns (SUSPICIOUS_PATH_PATTERNS env) DEFAULTS.suspiciousPathPatterns;
  badUserAgentPatterns :=
    parseStringPatterns (BAD_USER_AGENT_PATTERNS env) DEFAULTS.badUserAgentPatterns;
  botScoreTtlSeconds := parsePositiveInteger (BOT_SCORE_TTL_SECONDS env) DEFAULTS.botScoreTtlSeconds;
  botScoreBlockThreshold :=
    parsePositiveInteger (BOT_SCORE_BLOCK_THRESHOLD env) DEFAULTS.botScoreBlockThreshold;
  botScorePathWeight := parsePositiveInteger (BOT_SCORE_PATH_WEIGHT env) DEFAULTS.botScorePathWeight;
  botScoreUserAgentWeight :=
    parsePositiveInteger (BOT_SCORE_USER_AGENT_WEIGHT env) DEFAULTS.botScoreUserAgentWeight
|}.

Definition shouldInspectPath (path : string) (prefixes : list string) : bool :=
  if existsb (String.eqb "*") prefixes then true
  else existsb (fun prefix => Js.startsWith path prefix) prefixes.

Definition getClientIp (request : Request) : string :=
  match cf_connecting_ip (headers request) with
  | Some cfIp => if Js.truthy cfIp then Js.trim cfIp else ""
  | None => ""
  end.

(** Each part matches [/^\d{1,3}$/] and reads as a number from 0 to 255. *)
Definition isValidIpv4 (ip : string) : bool :=
  let parts := Js.split "." ip in
  if negb (length parts =? 4)%nat then false
  else
    forallb
      (fun part =>
         if negb ((1 <=? String.length part)%nat && (String.length part <=? 3)%nat &&
                  Js.forallb_string Js.isDigit part)
         then false
         else match Js.parseInt part with
              | Some value => (0 <=? value) && (value <=? 255)
              | None => false
              end)
      parts.

(** A colon somewhere, and [/^[0-9a-fA-F:]+$/]. *)
Definition isValidIpv6 (ip : string) : bool :=
  if negb (Js.includes ip ":") then false
  else Js.truthy ip &&
       Js.forallb_string (fun c => Js.isHexDigit c || Ascii.eqb c ":") ip.

Definition isValidIp (ip : string) : bool := isValidIpv4 ip || isValidIpv6 ip.

Definition blockedKey (ip : string) : string := BLOCK_KEY_PREFIX ++ ip.

Definition counterKey (ip scope : string) (windowId : Z) : string :=
  COUNTER_KEY_PREFIX ++ scope ++ ":" ++ ip ++ ":" ++ Js.ofNumber windowId.

Definition botScoreKey (ip : string) : string := BOT_SCORE_KEY_PREFIX ++ ip.

Definition matchesAnyPattern (target : string) (patterns : list string) : bool :=
  existsb (fun pattern => Js.includes target pattern) patterns.

Definition blockedResponse (ip : string) (details : json) : Response :=
  jsonResponse
    (JObj [("ok", JBool false); ("blocked", JBool true); ("ip", JStr ip);
           ("details", details)])
    403.

Definition isAuthorized (request : Request) (expectedToken : option string) : bool :=
  match expectedToken with
  | None => false
  | Some expected =>
      if negb (Js.truthy expected) then false
      else
        let authHeader := orElse (authorization (headers request)) "" in
        let prefix := "Bearer " in
        if negb (Js.startsWith authHeader prefix) then false
        else
          let providedToken := Js.trim (Js.slice (String.length prefix) authHeader) in
          (0 <? String.length providedToken)%nat && String.eqb providedToken expected
  end.

(* ===================================================================== *)
(** ** Asynchronous functions over the store *)
(* ===================================================================== *)

(** How a promise settles. *)
Inductive settled (A : Type) : Type :=
  | Fulfilled (a : A)
  | Rejected.

Arguments Fulfilled {A} a.
Arguments Rejected {A}.

(** An [async] function run against a store in state [K]: how it settles
    and the state in which it leaves the store. *)
Definition Async (K A : Type) : Type := K -> settled A * K.

Definition ret {K A : Type} (a : A) : Async K A := fun kv => (Fulfilled a, kv).

Definition bind {K A B : Type} (m : Async K A) (f : A -> Async K B) : Async K B :=
  fun kv =>
    match m kv with
    | (Fulfilled a, kv') => f a kv'
    | (Rejected, kv') => (Rejected, kv')
    end.

(** [try { body } catch { handler }] *)
Definition tryCatch {K A : Type} (body handler : Async K A) : Async K A :=
  fun kv =>
    match body kv with
    | (Fulfilled a, kv') => (Fulfilled a, kv')
    | (Rejected, kv') => handler kv'
    end.

Notation "'await' x <- m ; k" := (bind m (fun x => k))
  (at level 10, x name, m at level 100, k at level 200,
   format "'[v' 'await'  x  <-  m ; '/' k ']'").

(** The store binding, as the worker uses it: [get(key)],
    [put(key, value, { expirationTtl })] and [delete(key)].  Each call may
    reject and may change the store; [now] is the clock at the call. *)
Class KVNamespace (K : Type) := {
  kv_get : Z -> string -> Async K (option string);
  kv_put : Z -> string -> string -> Z -> Async K unit;
  kv_delete : Z -> string -> Async K unit
}.

(** Outcome of the bot scorer: [{ shouldBlock: false }] or
    [{ shouldBlock: true, record }]. *)
Inductive ScoreOutcome : Type :=
  | shouldNotBlock
  | shouldBlock (record : json).

(** [typeof v] *)
Definition typeof (v : json) : string :=
  match v with
  | JNull | JArr _ | JObj _ => "object"
  | JBool _ => "boolean"
  | JNum _ => "number"
  | JStr _ => "string"
  end.

Section Worker.

Context {K : Type} `{!KVNamespace K} `{!JsonParser}.

(** [null] is [JNull]. *)
Definition getBlockedIpRecord (ip : string) (now : Z) : Async K json :=
  await raw <- kv_get now (blockedKey ip) ;
  match raw with
  | None => ret JNull
  | Some raw =>
      if negb (Js.truthy raw) then ret JNull
      else match JSON_parse raw with
           | Some record => ret record
           | None => ret (JObj [("reason", JStr "manual"); ("detail", JStr raw)])
           end
  end.

Definition blockIp (ip : string) (record : json) (ttlSeconds : Z) (now : Z) : Async K unit :=
  let body := JSON_stringify record in
  kv_put now (blockedKey ip) body ttlSeconds.

Definition incrementCounter (ip scope : string) (windowSeconds : Z) (now : Z) : Async K Z :=
  let nowSeconds := now / 1000 in
  let windowId := nowSeconds / windowSeconds in
  let key := counterKey ip scope windowId in
  await currentRaw <- kv_get now key ;
  let current :=
    match currentRaw with
    | Some raw => if Js.truthy raw then Js.parseInt raw else Some 0
    | None => Some 0
    end in
  let next := match current with None => 1 | Some current => current + 1 end in
  await _ <- kv_put now key (Js.ofNumber next) (windowSeconds + 5) ;
  ret next.

Definition incrementBotScore (ip : string) (delta ttlSeconds : Z) (now : Z) : Async K Z :=
  let key := botScoreKey ip in
  await currentRaw <- kv_get now key ;
  let current :=
    match currentRaw with
    | Some raw => if Js.truthy raw then Js.parseInt raw else Some 0
    | None => Some 0
    end in
  let next := match current with None => 0 | Some current => current end + delta in
  await _ <- kv_put now key (Js.ofNumber next) ttlSeconds ;
  ret next.

Definition getBotScore (ip : string) (now : Z) : Async K Z :=
  await raw <- kv_get now (botScoreKey ip) ;
  match raw with
  | None => ret 0
  | Some raw =>
      if negb (Js.truthy raw) then ret 0
      else match Js.parseInt raw with
           | None => ret 0
           | Some value => ret value
           end
  end.

(** The first part of [maybeScoreBotSignals], before it turns to the
    store: the score that the signals of the request add, and their names. *)
Definition botSignals (request : Request) (url : URL) (config : Config) : Z * list string :=
  let scoreDelta := 0 in
  let signals : list string := [] in
  let lowerPath := Js.toLowerCase (pathname url) in
  let '(scoreDelta, signals) :=
    if matchesAnyPattern lowerPath (suspiciousPathPatterns config)
    then (scoreDelta + botScorePathWeight config, (signals ++ ["suspicious_path"])%list)
    else (scoreDelta, signals) in
  let userAgent := Js.toLowerCase (orElse (user_agent (headers request)) "") in
  if negb (Js.truthy userAgent) || matchesAnyPattern userAgent (badUserAgentPatterns config)
  then (scoreDelta + botScoreUserAgentWeight config,
        (signals ++ [if negb (Js.truthy userAgent) then "missing_user_agent"
                     else "bad_user_agent"])%list)
  else (scoreDelta, signals).

Definition maybeScoreBotSignals (request : Request) (url : URL) (ip : string)
    (config : Config) (now : Z) : Async K ScoreOutcome :=
  let '(scoreDelta, signals) := botSignals request url config in
  if scoreDelta <=? 0 then ret shouldNotBlock
  else
    await score <- incrementBotScore ip scoreDelta (botScoreTtlSeconds config) now ;
    if score <? botScoreBlockThreshold config then ret shouldNotBlock
    else
      ret (shouldBlock
             (JObj [("reason", JStr "bot_signature");
                    ("blockedAt", JStr (toISOString now));
                    ("score", JNum score);
                    ("blockThreshold", JNum (botScoreBlockThreshold config));
                    ("scoreDelta", JNum scoreDelta);
                    ("signals", JArr (map JStr signals));
                    ("path", JStr (pathname url))])).

(** [request.json()] caught: [null] for a body that is missing or is not
    JSON. *)
Definition readJsonBody (request : Request) : json :=
  match body request with
  | None => JNull
  | Some text =>
      match JSON_parse text with
      | Some value => value
      | None => JNull
      end
  end.

(** The routes of the administrative API once the store binding is known
    to be there. *)
Definition adminRoutes (request : Request) (env : Env K) (config : Config) (url : URL)
    (now : Z) : Async K Response :=
  if String.eqb (method request) "GET" &&
     String.eqb (pathname url) (adminPathPrefix config ++ "/health")
  then ret (jsonResponse (JObj [("ok", JBool true); ("service", JStr "botnet-guard")]) 200)
  else if negb (isAuthorized request (BOTNET_ADMIN_TOKEN env))
  then ret (jsonResponse (JObj [("ok", JBool false); ("error", JStr "unauthorized")]) 401)
  else if String.eqb (method request) "GET" &&
          String.eqb (pathname url) (adminPathPrefix config ++ "/status")
  then
    let ip := orElse (searchParams_get "ip" (searchParams url)) "" in
    if negb (isValidIp ip)
    then ret (jsonResponse
                (JObj [("ok", JBool false); ("error", JStr "valid ip is required")]) 400)
    else
      await details <- getBlockedIpRecord ip now ;
      await score <- getBotScore ip now ;
      ret (jsonResponse
             (JObj [("ok", JBool true); ("ip", JStr ip);
                    ("blocked", JBool (truthy details)); ("details", details);
                    ("botScore", JNum score)])
             200)
  else if String.eqb (method request) "POST" &&
          String.eqb (pathname url) (adminPathPrefix config ++ "/block")
  then
    let body := readJsonBody request in
    if negb (truthy body) || negb (String.eqb (typeof body) "object")
    then ret (jsonResponse
                (JObj [("ok", JBool false); ("error", JStr "invalid json body")]) 400)
    else
      let ip := match prop body "ip" with Some (JStr ip) => Js.trim ip | _ => "" end in
      if negb (isValidIp ip)
      then ret (jsonResponse
                  (JObj [("ok", JBool false); ("error", JStr "valid ip is required")]) 400)
      else
        let ttlSeconds :=
          parsePositiveInteger (toString <$> prop body "ttlSeconds") (blockTtlSeconds config) in
        let record :=
          JObj [("reason",
                 JStr match prop body "reason" with
                      | Some (JStr reason) =>
                          if Js.truthy (Js.trim reason) then Js.trim reason else "manual"
                      | _ => "manual"
                      end);
                ("blockedAt", JStr (toISOString now));
                ("actor", JStr "admin_api")] in
        await _ <- blockIp ip record ttlSeconds now ;
        ret (jsonResponse
               (JObj [("ok", JBool true); ("blocked", JBool true); ("ip", JStr ip);
                      ("ttlSeconds", JNum ttlSeconds); ("details", record)])
               200)
  else if (String.eqb (method request) "POST" || String.eqb (method request) "DELETE") &&
          String.eqb (pathname url) (adminPathPrefix config ++ "/unblock")
  then
    let body := readJsonBody request in
    let ip :=
      if truthy body
      then match prop body "ip" with Some (JStr ip) => Js.trim ip | _ => "" end
      else "" in
    if negb (isValidIp ip)
    then ret (jsonResponse
                (JObj [("ok", JBool false); ("error", JStr "valid ip is required")]) 400)
    else
      await _ <- kv_delete now (blockedKey ip) ;
      await _ <- kv_delete now (botScoreKey ip) ;
      ret (jsonResponse
             (JObj [("ok", JBool true); ("blocked", JBool false); ("ip", JStr ip)]) 200)
  else ret (jsonResponse (JObj [("ok", JBool false); ("error", JStr "not_found")]) 404).

(** Runs an asynchronous function against the bound store. *)
Definition withStore {A : Type} (kv : K) (m : Async K A) : settled A * option K :=
  let '(result, kv') := m kv in (result, Some kv').

Definition handleAdminRequest (request : Request) (env : Env K) (config : Config)
    (url : URL) (now : Z) : settled Response * option K :=
  match BOTNET_KV env with
  | None =>
      (Fulfilled
         (jsonResponse
            (JObj [("ok", JBool false); ("error", JStr "BOTNET_KV binding is missing")]) 500),
       None)
  | Some kv => withStore kv (adminRoutes request env config url now)
  end.

Definition rateLimitRecord (reason : string) (now windowSeconds maxRequests observedCount : Z)
    (path : string) : json :=
  JObj [("reason", JStr reason);
        ("blockedAt", JStr (toISOString now));
        ("windowSeconds", JNum windowSeconds);
        ("maxRequests", JNum maxRequests);
        ("observedCount", JNum observedCount);
        ("path", JStr path)].

(** The body of the [try] of [fetch]: [Some response] when it returns one,
    [None] when control falls through to the final [fetch(request)]. *)
Definition inspect (request : Request) (config : Config) (url : URL) (ip : string)
    (now : Z) : Async K (option Response) :=
  await blocked <- getBlockedIpRecord ip now ;
  if truthy blocked then ret (Some (blockedResponse ip blocked))
  else if shouldInspectPath (pathname url) (protectedPathPrefixes config)
  then
    await windowCount <- incrementCounter ip "window" (rateWindowSeconds config) now ;
    if rateMaxRequests config <? windowCount
    then
      let blockRecord :=
        rateLimitRecord "rate_limit_window" now (rateWindowSeconds config)
          (rateMaxRequests config) windowCount (pathname url) in
      await _ <- blockIp ip blockRecord (blockTtlSeconds config) now ;
      ret (Some (blockedResponse ip blockRecord))
    else
      await burstCount <- incrementCounter ip "burst" (burstWindowSeconds config) now ;
      if burstMaxRequests config <? burstCount
      then
        let blockRecord :=
          rateLimitRecord "rate_limit_burst" now (burstWindowSeconds config)
            (burstMaxRequests config) burstCount (pathname url) in
        await _ <- blockIp ip blockRecord (blockTtlSeconds config) now ;
        ret (Some (blockedResponse ip blockRecord))
      else
        await scoreOutcome <- maybeScoreBotSignals request url ip config now ;
        match scoreOutcome with
        | shouldBlock record =>
            await _ <- blockIp ip record (blockTtlSeconds config) now ;
            ret (Some (blockedResponse ip record))
        | shouldNotBlock => ret None
        end
  else ret None.

(** The worker's [fetch(request, env)]. *)
Definition fetch (request : Request) (env : Env K) (now : Z) : settled Response * option K :=
  let config := readConfig env in
  let url := url request in
  if Js.startsWith (pathname url) (adminPathPrefix config)
  then handleAdminRequest request env config url now
  else
    match BOTNET_KV env with
    | None => (Fulfilled (originFetch request), None)
    | Some kv =>
        let ip := getClientIp request in
        if negb (Js.truthy ip) || negb (isValidIp ip) ||
           bool_decide (ip ∈ allowlistIps config)
        then (Fulfilled (originFetch request), Some kv)
        else
          withStore kv
            (await returned <-
               tryCatch (inspect request config url ip now) (ret None) ;
             match returned with
             | Some response => ret response
             | None => ret (originFetch request)
             end)
    end.

End Worker.

(* ===================================================================== *)
(** ** The in-memory store of the test suite *)
(* ===================================================================== *)

Record Entry := {
  value : string;
  expiresAtMs : option Z
}.

(** [class MockKV]: a [Map] from keys to entries. *)
Record MockKV := { store : gmap string Entry }.

Module Mock.

(** [new MockKV()] *)
Definition new : MockKV := {| store := ∅ |}.

(** An entry past its expiry is removed by the read that finds it. *)
Definition get (now : Z) (key : string) : Async MockKV (option string) :=
  fun this =>
    match store this !! key with
    | None => (Fulfilled None, this)
    | Some entry =>
        match expiresAtMs entry with
        | Some expires =>
            if expires <=? now
            then (Fulfilled None, {| store := delete key (store this) |})
            else (Fulfilled (Some (value entry)), this)
        | None => (Fulfilled (Some (value entry)), this)
        end
    end.

(** [options] is the [expirationTtl] of the call, [None] when the call
    gives none.  The time to live is read back from its text, and the expiry
    is a sum of numbers: both are those of the platform as long as they are
    exact there, which the properties below ask with [exactExpiry]. *)
Definition put (now : Z) (key val : string) (options : option Z) : Async MockKV unit :=
  fun this =>
    let ttl := (Js.ofNumber <$> options) ≫= Js.parseInt in
    let expiresAtMs :=
      match ttl with
      | None => None
      | Some ttl => Some (now + ttl * 1000)
      end in
    (Fulfilled tt,
     {| store := <[key := {| value := val; expiresAtMs := expiresAtMs |}]> (store this) |}).

Definition delete (now : Z) (key : string) : Async MockKV unit :=
  fun this => (Fulfilled tt, {| store := base.delete key (store this) |}).

(** What [get] reads, and the store it leaves. *)
Definition read (now : Z) (key : string) (this : MockKV) : option string :=
  match fst (get now key this) with
  | Fulfilled found => found
  | Rejected => None
  end.

Definition swept (now : Z) (key : string) (this : MockKV) : MockKV :=
  snd (get now key this).

(** The store with [key] bound to [val] until [ttl] seconds from [now]. *)
Definition write (now : Z) (key val : string) (ttl : Z) (this : MockKV) : MockKV :=
  {| store := <[key := {| value := val; expiresAtMs := Some (now + ttl * 1000) |}]>
                (store this) |}.

(** The store without [key]. *)
Definition without (key : string) (this : MockKV) : MockKV :=
  {| store := base.delete key (store this) |}.

End Mock.

#[export] Instance MockKV_namespace : KVNamespace MockKV := {|
  kv_get := Mock.get;
  kv_put := fun now key val ttl => Mock.put now key val (Some ttl);
  kv_delete := Mock.delete
|}.

(** A store that breaks down on schedule: the head of [outages] tells
    whether the next operation rejects; past the schedule every operation
    reaches the store. *)
Record FlakyKV := {
  backing : MockKV;
  outages : list bool
}.

Definition flaky {A : Type} (operation : Async MockKV A) : Async FlakyKV A :=
  fun this =>
    match outages this with
    | true :: later => (Rejected, {| backing := backing this; outages := later |})
    | schedule =>
        let '(result, kv) := operation (backing this) in
        (result, {| backing := kv; outages := tail schedule |})
    end.

#[export] Instance FlakyKV_namespace : KVNamespace FlakyKV := {|
  kv_get := fun now key => flaky (Mock.get now key);
  kv_put := fun now key val ttl => flaky (Mock.put now key val (Some ttl));
  kv_delete := fun now key => flaky (Mock.delete now key)
|}.

(* ===================================================================== *)
(** ** A reference [JSON.parse] *)
(* ===================================================================== *)

(** The properties of the worker hold for every [JSON.parse]; the examples
    run them with this parser.  It reads JSON texts whose numbers are
    integer numerals and whose strings stay below code unit 256, and
    rejects a numeral with a fraction or an exponent and an escape of a
    higher code unit, which the platform accepts. *)
Module Reference.

Fixpoint skipWs (s : string) : string :=
  match s with
  | String c rest =>
      let n := nat_of_ascii c in
      if ((n =? 32) || (n =? 9) || (n =? 10) || (n =? 13))%nat then skipWs rest else s
  | EmptyString => EmptyString
  end.

Definition hexValue (c : ascii) : option nat :=
  let n := nat_of_ascii c in
  if ((48 <=? n) && (n <=? 57))%nat then Some (n - 48)%nat
  else if ((65 <=? n) && (n <=? 70))%nat then Some (n - 55)%nat
  else if ((97 <=? n) && (n <=? 102))%nat then Some (n - 87)%nat
  else None.

Definition unescape (c : ascii) : option ascii :=
  let n := nat_of_ascii c in
  if ((n =? 34) || (n =? 92) || (n =? 47))%nat then Some c
  else if (n =? 98)%nat then Some (ascii_of_nat 8)
  else if (n =? 102)%nat then Some (ascii_of_nat 12)
  else if (n =? 110)%nat then Some (ascii_of_nat 10)
  else if (n =? 114)%nat then Some (ascii_of_nat 13)
  else if (n =? 116)%nat then Some (ascii_of_nat 9)
  else None.

Definition prepend (c : ascii) (r : option (string * string)) : option (string * string) :=
  match r with
  | Some (content, rest) => Some (String c content, rest)
  | None => None
  end.

(** The characters of a string literal after its opening quote, and what
    follows its closing quote. *)
Fixpoint parseChars (s : string) : option (string * string) :=
  match s with
  | EmptyString => None
  | String c rest =>
      if Ascii.eqb c doubleQuote then Some (EmptyString, rest)
      else if Ascii.eqb c backslash then
        match rest with
        | String "u" (String h1 (String h2 (String h3 (String h4 rest')))) =>
            match hexValue h1, hexValue h2, hexValue h3, hexValue h4 with
            | Some 0%nat, Some 0%nat, Some v3, Some v4 =>
                prepend (ascii_of_nat (16 * v3 + v4)) (parseChars rest')
            | _, _, _, _ => None
            end
        | String e rest' =>
            match unescape e with
            | Some c' => prepend c' (parseChars rest')
            | None => None
            end
        | EmptyString => None
        end
      else if (nat_of_ascii c <? 32)%nat then None
      else prepend c (parseChars rest)
  end.

(** An integer numeral: an optional minus sign, then [0] or digits that
    do not start with [0]. *)
Definition parseNumber (s : string) : option (json * string) :=
  let '(neg, s1) :=
    match s with
    | String "-" rest => (true, rest)
    | _ => (false, s)
    end in
  let digits := Js.digitsPrefix s1 in
  let rest := Js.slice (String.length digits) s1 in
  match digits, NilZero.uint_of_string digits with
  | String "0" (String _ _), _ => None
  | _, None => None
  | _, Some d =>
      match rest with
      | String "." _ | String "e" _ | String "E" _ => None
      | _ => Some (JNum (if neg : bool then - Z.of_uint d else Z.of_uint d), rest)
      end
  end.

(** A later property of the same name replaces the value of the earlier
    one, in its place. *)
Fixpoint setProp (k : string) (v : json) (props : list (string * json)) : list (string * json) :=
  match props with
  | [] => [(k, v)]
  | (k', v') :: rest =>
      if String.eqb k' k then (k', v) :: rest else (k', v') :: setProp k v rest
  end.

(** Elements after the first, up to the closing bracket. *)
Fixpoint parseElements (parseValue : string -> option (json * string)) (fuel : nat)
    (s : string) : option (list json * string) :=
  match fuel with
  | O => None
  | S fuel =>
      match parseValue s with
      | None => None
      | Some (v, rest) =>
          match skipWs rest with
          | String "," rest' =>
              match parseElements parseValue fuel rest' with
              | Some (vs, rest'') => Some (v :: vs, rest'')
              | None => None
              end
          | String "]" rest' => Some ([v], rest')
          | _ => None
          end
      end
  end.

Fixpoint parseMembers (parseValue : string -> option (json * string)) (fuel : nat)
    (acc : list (string * json)) (s : string) : option (list (string * json) * string) :=
  match fuel with
  | O => None
  | S fuel =>
      match skipWs s with
      | String c rest =>
          if negb (Ascii.eqb c doubleQuote) then None
          else
            match parseChars rest with
            | None => None
            | Some (k, rest1) =>
                match skipWs rest1 with
                | String ":" rest2 =>
                    match parseValue rest2 with
                    | None => None
                    | Some (v, rest3) =>
                        match skipWs rest3 with
                        | String "," rest4 =>
                            parseMembers parseValue fuel (setProp k v acc) rest4
                        | String "}" rest4 => Some (setProp k v acc, rest4)
                        | _ => None
                        end
                    end
                | _ => None
                end
            end
      | EmptyString => None
      end
  end.

Fixpoint parseValue (fuel : nat) (s : string) : option (json * string) :=
  match fuel with
  | O => None
  | S fuel =>
      match skipWs s with
      | String "{" rest =>
          match skipWs rest with
          | String "}" rest' => Some (JObj [], rest')
          | _ =>
              match parseMembers (parseValue fuel) (String.length rest) [] rest with
              | Some (props, rest') => Some (JObj props, rest')
              | None => None
              end
          end
      | String "[" rest =>
          match skipWs rest with
          | String "]" rest' => Some (JArr [], rest')
          | _ =>
              match parseElements (parseValue fuel) (String.length rest) rest with
              | Some (items, rest') => Some (JArr items, rest')
              | None => None
              end
          end
      | String c rest as s' =>
          if Ascii.eqb c doubleQuote then
            match parseChars rest with
            | Some (content, rest') => Some (JStr content, rest')
            | None => None
            end
          else if String.prefix "true" s' then Some (JBool true, Js.slice 4 s')
          else if String.prefix "false" s' then Some (JBool false, Js.slice 5 s')
          else if String.prefix "null" s' then Some (JNull, Js.slice 4 s')
          else parseNumber s'
      | EmptyString => None
      end
  end.

Definition parse (text : string) : option json :=
  match parseValue (S (String.length text)) text with
  | Some (v, rest) =>
      match skipWs rest with
      | EmptyString => Some v
      | _ => None
      end
  | None => None
  end.

End Reference.

#[export] Instance reference_parser : JsonParser := {| JSON_parse := Reference.parse |}.

(* ===================================================================== *)
(** ** The fixtures of the test suite *)
(* ===================================================================== *)

(** [createEnv(overrides)] without the overrides. *)
Definition createEnv (kv : MockKV) : Env MockKV := {|
  BOTNET_KV := Some kv;
  BOTNET_ADMIN_TOKEN := Some "test-token";
  RATE_WINDOW_SECONDS := Some "60";
  RATE_MAX_REQUESTS := Some "2";
  BURST_WINDOW_SECONDS := Some "10";
  BURST_MAX_REQUESTS := Some "100";
  BLOCK_TTL_SECONDS := Some "120";
  PROTECTED_PATH_PREFIXES := Some "/api";
  SUSPICIOUS_PATH_PATTERNS := Some "/wp-login.php,/xmlrpc.php";
  BAD_USER_AGENT_PATTERNS := Some "curl/,python-requests";
  BOT_SCORE_TTL_SECONDS := Some "900";
  BOT_SCORE_BLOCK_THRESHOLD := Some "6";
  BOT_SCORE_PATH_WEIGHT := Some "3";
  BOT_SCORE_USER_AGENT_WEIGHT := Some "2";
  ADMIN_PATH_PREFIX := Some "/__botnet";
  ALLOWLIST_IPS := Some ""
|}.

(** [createRequest(url, { method, ip, token, body, userAgent })] *)
Definition createRequest (path : string) (query : list (string * string)) (method ip : string)
    (token : option string) (body : option json) (userAgent : string) : Request := {|
  method := method;
  url := {| pathname := path; searchParams := query |};
  headers := {|
    cf_connecting_ip := Some ip;
    user_agent := if Js.truthy userAgent then Some userAgent else None;
    authorization := (fun token => "Bearer " ++ token) <$> token
  |};
  body := JSON_stringify <$> body
|}.

(** Replaces the store binding of an environment. *)
Definition withKV {K K' : Type} (env : Env K) (kv : option K') : Env K' := {|
  BOTNET_KV := kv;
  BOTNET_ADMIN_TOKEN := BOTNET_ADMIN_TOKEN env;
  RATE_WINDOW_SECONDS := RATE_WINDOW_SECONDS env;
  RATE_MAX_REQUESTS := RATE_MAX_REQUESTS env;
  BURST_WINDOW_SECONDS := BURST_WINDOW_SECONDS env;
  BURST_MAX_REQUESTS := BURST_MAX_REQUESTS env;
  BLOCK_TTL_SECONDS := BLOCK_TTL_SECONDS env;
  PROTECTED_PATH_PREFIXES := PROTECTED_PATH_PREFIXES env;
  SUSPICIOUS_PATH_PATTERNS := SUSPICIOUS_PATH_PATTERNS env;
  BAD_USER_AGENT_PATTERNS := BAD_USER_AGENT_PATTERNS env;
  BOT_SCORE_TTL_SECONDS := BOT_SCORE_TTL_SECONDS env;
  BOT_SCORE_BLOCK_THRESHOLD := BOT_SCORE_BLOCK_THRESHOLD env;
  BOT_SCORE_PATH_WEIGHT := BOT_SCORE_PATH_WEIGHT env;
  BOT_SCORE_USER_AGENT_WEIGHT := BOT_SCORE_USER_AGENT_WEIGHT env;
  ADMIN_PATH_PREFIX := ADMIN_PATH_PREFIX env;
  ALLOWLIST_IPS := ALLOWLIST_IPS env
|}.

(** The status of a response, when the origin answers [originStatus]. *)
Definition statusOf (originStatus : Z) (response : Response) : Z :=
  match response with
  | originFetch _ => originStatus
  | jsonResponse _ status => status
  end.

(** The payload of a JSON response. *)
Definition payloadOf (response : Response) : json :=
  match response with
  | originFetch _ => JNull
  | jsonResponse payload _ => payload
  end.

(** Runs the worker on a sequence of requests with their arrival times,
    each against the store the previous one left. *)
Fixpoint serve {K : Type} `{!KVNamespace K} `{!JsonParser} (env : Env K)
    (requests : list (Request * Z)) : list (settled Response) :=
  match requests with
  | [] => []
  | (request, now) :: later =>
      let '(result, kv) := fetch request env now in
      result :: serve (withKV env kv) later
  end.

(* ===================================================================== *)
(** ** Notions used to state the properties *)
(* ===================================================================== *)

(** A response blocks when it is a JSON response of status 403, the status
    of [blockedResponse] alone. *)
Definition blocks (response : Response) : bool :=
  match response with
  | jsonResponse _ status => status =? 403
  | originFetch _ => false
  end.

(** The token a request presents, as [isAuthorized] extracts it: what
    follows [Bearer ] in the [Authorization] header, trimmed; [None] when
    the header is not there or does not start that way. *)
Definition bearerToken (request : Request) : option string :=
  let authHeader := orElse (authorization (headers request)) "" in
  if Js.startsWith authHeader "Bearer "
  then Some (Js.trim (Js.slice 7 authHeader))
  else None.

(** The configured secret, [None] when it is absent (undefined or empty). *)
Definition secretOf {K : Type} (env : Env K) : option string :=
  match BOTNET_ADMIN_TOKEN env with
  | Some secret => if Js.truthy secret then Some secret else None
  | None => None
  end.


(** The request of [GET {prefix}/health]. *)
Definition isHealthCheck (request : Request) (config : Config) : Prop :=
  method request = "GET" /\
  pathname (url request) = adminPathPrefix config ++ "/health".

Definition healthPayload : json :=
  JObj [("ok", JBool true); ("service", JStr "botnet-guard")].

Definition errorPayload (message : string) : json :=
  JObj [("ok", JBool false); ("error", JStr message)].

(** The credentials of a request are rejected when the secret is absent,
    or the request presents no token, or the token is not the secret. *)
Definition credentialsRejected {K : Type} (request : Request) (env : Env K) : Prop :=
  secretOf env = None \/ bearerToken request = None \/
  bearerToken request <> secretOf env.


Definition isUnblockRoute (request : Request) (config : Config) : Prop :=
  (method request = "POST" \/ method request = "DELETE") /\
  pathname (url request) = adminPathPrefix config ++ "/unblock".


(** What [getBlockedIpRecord] makes of a stored text that is not empty: the
    value it denotes, or a manual record around the text when it is not
    JSON. *)
Definition decodeRecord `{!JsonParser} (raw : string) : json :=
  match JSON_parse raw with
  | Some record => record
  | None => JObj [("reason", JStr "manual"); ("detail", JStr raw)]
  end.

(** An asynchronous function that never rejects, and a store none of
    whose operations does. *)
Definition answers {K A : Type} (m : Async K A) : Prop :=
  forall kv, fst (m kv) <> Rejected.

Definition reliable (K : Type) `{!KVNamespace K} : Prop :=
  (forall now key, answers (kv_get now key)) /\
  (forall now key val ttl, answers (kv_put now key val ttl)) /\
  (forall now key, answers (kv_delete now key)).

(** Every value the asynchronous function returns satisfies [P]. *)
Definition returns {K A : Type} (P : A -> Prop) (m : Async K A) : Prop :=
  forall kv a kv', m kv = (Fulfilled a, kv') -> P a.

(** The score that the signals of a request add, as the specification
    words it: the path weight when the lowercased path contains a suspicious
    pattern, plus the user-agent weight when the user agent is missing or
    else when it matches a bad pattern. *)
Definition signalDelta (request : Request) (url : URL) (config : Config) : Z :=
  let userAgent := orElse (user_agent (headers request)) "" in
  (if matchesAnyPattern (Js.toLowerCase (pathname url)) (suspiciousPathPatterns config)
   then botScorePathWeight config else 0) +
  (if negb (Js.truthy userAgent) then botScoreUserAgentWeight config
   else if matchesAnyPattern (Js.toLowerCase userAgent) (badUserAgentPatterns config)
        then botScoreUserAgentWeight config
        else 0).

Definition signalNames (request : Request) (url : URL) (config : Config) : list string :=
  let userAgent := orElse (user_agent (headers request)) "" in
  ((if matchesAnyPattern (Js.toLowerCase (pathname url)) (suspiciousPathPatterns config)
    then ["suspicious_path"] else []) ++
   (if negb (Js.truthy userAgent) then ["missing_user_agent"]
    else if matchesAnyPattern (Js.toLowerCase userAgent) (badUserAgentPatterns config)
         then ["bad_user_agent"]
         else []))%list.

(** The bot score of an address, as [getBotScore] reads it from the
    in-memory store. *)
Definition scoreOf (now : Z) (ip : string) (kv : MockKV) : Z :=
  match fst (getBotScore ip now kv) with
  | Fulfilled score => score
  | Rejected => 0
  end.

Definition botRecord (now score threshold delta : Z) (signals : list string)
    (path : string) : json :=
  JObj [("reason", JStr "bot_signature");
        ("blockedAt", JStr (toISOString now));
        ("score", JNum score);
        ("blockThreshold", JNum threshold);
        ("scoreDelta", JNum delta);
        ("signals", JArr (map JStr signals));
        ("path", JStr path)].

(** The count [incrementCounter] returns after reading [found]. *)
Definition nextCount (found : option string) : Z :=
  match found with
  | Some raw =>
      if Js.truthy raw
      then match Js.parseInt raw with Some current => current + 1 | None => 1 end
      else 1
  | None => 1
  end.

(** The key of the counter of a scope at an instant. *)
Definition counterKeyAt (ip scope : string) (windowSeconds now : Z) : string :=
  counterKey ip scope (now / 1000 / windowSeconds).




(** A store under watch: the store, and whether one of the operations made
    on it so far has rejected. *)
Record Watched (K : Type) := {
  watched : K;
  failed : bool
}.

Arguments watched {K} w.
Arguments failed {K} w.

(** An operation made on the store under watch: a rejection is noted. *)
Definition watch {K A : Type} (operation : Async K A) : Async (Watched K) A :=
  fun this =>
    match operation (watched this) with
    | (Fulfilled a, kv) => (Fulfilled a, {| watched := kv; failed := failed this |})
    | (Rejected, kv) => (Rejected, {| watched := kv; failed := true |})
    end.

#[export] Instance Watched_namespace {K : Type} `{!KVNamespace K} : KVNamespace (Watched K) := {|
  kv_get := fun now key => watch (kv_get now key);
  kv_put := fun now key val ttl => watch (kv_put now key val ttl);
  kv_delete := fun now key => watch (kv_delete now key)
|}.

(** The same code run on the store and on the store under watch. *)
Definition watches {K A : Type} (m : Async K A) (m' : Async (Watched K) A) : Prop :=
  forall this, m' this = watch m this.

(** [Number.MAX_SAFE_INTEGER]: up to it, in absolute value, the numbers of
    the platform hold the integers and their sums exactly. *)
Definition MAX_SAFE_INTEGER : Z := 9007199254740991.

Definition safeInteger (n : Z) : Prop := - MAX_SAFE_INTEGER <= n <= MAX_SAFE_INTEGER.

(** The expiry [now + ttl * 1000] of an entry put at [now] for [ttl]
    seconds is computed exactly. *)
Definition exactExpiry (now ttl : Z) : Prop :=
  safeInteger now /\ safeInteger (ttl * 1000) /\ safeInteger (now + ttl * 1000).

(** The words of the specification on the signals of a request.  A text
    contains a pattern when the pattern occurs in it as a substring. *)
Definition contains (text pattern : string) : Prop :=
  exists before after, text = before ++ pattern ++ after.

Definition capitalLetters : string := "ABCDEFGHIJKLMNOPQRSTUVWXYZ".
Definition smallLetters : string := "abcdefghijklmnopqrstuvwxyz".

(** Lower case of a code unit below 256: a capital letter becomes the
    small letter of the same rank; a capital of Latin-1 (U+00C0 to U+00DE,
    the multiplication sign U+00D7 apart) becomes the code unit 32 further;
    any other code unit is kept. *)
Definition lowercaseUnit (c : ascii) : ascii :=
  match index 0 (String c "") capitalLetters with
  | Some rank =>
      match get rank smallLetters with
      | Some small => small
      | None => c
      end
  | None =>
      let n := nat_of_ascii c in
      if ((192 <=? n) && (n <=? 222) && negb (n =? 215))%nat
      then ascii_of_nat (n + 32)
      else c
  end.

Definition lowercase (s : string) : string :=
  string_of_list_ascii (map lowercaseUnit (list_ascii_of_string s)).

(** The path signal: the lowercased path contains a suspicious-path
    pattern of the configuration. *)
Definition suspiciousPath (url : URL) (config : Config) : Prop :=
  exists pattern,
    In pattern (suspiciousPathPatterns config) /\
    contains (lowercase (pathname url)) pattern.

(** The two user-agent signals: no user agent, or a user agent whose lower
    case contains a bad-user-agent pattern of the configuration. *)
Definition missingUserAgent (request : Request) : Prop :=
  user_agent (headers request) = None \/ user_agent (headers request) = Some "".

Definition badUserAgent (request : Request) (config : Config) : Prop :=
  exists userAgent pattern,
    user_agent (headers request) = Some userAgent /\
    In pattern (badUserAgentPatterns config) /\
    contains (lowercase userAgent) pattern.

(** Arrival time of the examples: 2023-11-14T22:13:20Z. *)
Definition t0 : Z := 1700000000000.

(** The environment of the tests with no store bound. *)
Definition envWithoutStore : Env MockKV := withKV (createEnv Mock.new) None.

(** The environment of the tests with the address 8.8.8.8 allowlisted. *)
Definition allowlistingEnv (kv : MockKV) : Env MockKV := {|
  BOTNET_KV := Some kv;
  BOTNET_ADMIN_TOKEN := Some "test-token";
  RATE_WINDOW_SECONDS := Some "60";
  RATE_MAX_REQUESTS := Some "2";
  BURST_WINDOW_SECONDS := Some "10";
  BURST_MAX_REQUESTS := Some "100";
  BLOCK_TTL_SECONDS := Some "120";
  PROTECTED_PATH_PREFIXES := Some "/api";
  SUSPICIOUS_PATH_PATTERNS := Some "/wp-login.php,/xmlrpc.php";
  BAD_USER_AGENT_PATTERNS := Some "curl/,python-requests";
  BOT_SCORE_TTL_SECONDS := Some "900";
  BOT_SCORE_BLOCK_THRESHOLD := Some "6";
  BOT_SCORE_PATH_WEIGHT := Some "3";
  BOT_SCORE_USER_AGENT_WEIGHT := Some "2";
  ADMIN_PATH_PREFIX := Some "/__botnet";
  ALLOWLIST_IPS := Some "8.8.8.8"
|}.

(** The environment of the bot-signature test: the overrides
    [RATE_MAX_REQUESTS: '100'], [BURST_MAX_REQUESTS: '100'],
    [BOT_SCORE_BLOCK_THRESHOLD: '5'] and [PROTECTED_PATH_PREFIXES: '*']. *)
Definition botTestEnv (kv : MockKV) : Env MockKV := {|
  BOTNET_KV := Some kv;
  BOTNET_ADMIN_TOKEN := Some "test-token";
  RATE_WINDOW_SECONDS := Some "60";
  RATE_MAX_REQUESTS := Some "100";
  BURST_WINDOW_SECONDS := Some "10";
  BURST_MAX_REQUESTS := Some "100";
  BLOCK_TTL_SECONDS := Some "120";
  PROTECTED_PATH_PREFIXES := Some "*";
  SUSPICIOUS_PATH_PATTERNS := Some "/wp-login.php,/xmlrpc.php";
  BAD_USER_AGENT_PATTERNS := Some "curl/,python-requests";
  BOT_SCORE_TTL_SECONDS := Some "900";
  BOT_SCORE_BLOCK_THRESHOLD := Some "5";
  BOT_SCORE_PATH_WEIGHT := Some "3";
  BOT_SCORE_USER_AGENT_WEIGHT := Some "2";
  ADMIN_PATH_PREFIX := Some "/__botnet";
  ALLOWLIST_IPS := Some ""
|}.

(** An environment that sets the window limit to 2 requests in 60 seconds
    and leaves every other setting to its default. *)
Definition windowOnlyEnv (kv : MockKV) : Env MockKV := {|
  BOTNET_KV := Some kv;
  BOTNET_ADMIN_TOKEN := None;
  RATE_WINDOW_SECONDS := Some "60";
  RATE_MAX_REQUESTS := Some "2";
  BURST_WINDOW_SECONDS := None;
  BURST_MAX_REQUESTS := None;
  BLOCK_TTL_SECONDS := None;
  PROTECTED_PATH_PREFIXES := None;
  SUSPICIOUS_PATH_PATTERNS := None;
  BAD_USER_AGENT_PATTERNS := None;
  BOT_SCORE_TTL_SECONDS := None;
  BOT_SCORE_BLOCK_THRESHOLD := None;
  BOT_SCORE_PATH_WEIGHT := None;
  BOT_SCORE_USER_AGENT_WEIGHT := None;
  ADMIN_PATH_PREFIX := None;
  ALLOWLIST_IPS := None
|}.

Definition browser : string := "Mozilla/5.0 test".

(** The record an administrator stored for 8.8.8.8 at [t0], for 300
    seconds. *)
Definition manualRecord : json :=
  JObj [("reason", JStr "manual-test"); ("blockedAt", JStr (toISOString t0));
        ("actor", JStr "admin_api")].

Definition blockedStore : MockKV :=
  Mock.write t0 (blockedKey "8.8.8.8") (JSON_stringify manualRecord) 300 Mock.new.

Definition healthRequest : Request :=
  createRequest "/__botnet/health" [] "GET" "8.8.8.8" None None browser.

Definition anonymousHealthRequest : Request :=
  createRequest "/__botnet/health" [] "GET" "1.2.3.4" None None browser.

Definition statusWrongToken : Request :=
  createRequest "/__botnet/status" [("ip", "1.2.3.4")] "GET" "1.2.3.4"
    (Some "wrong-token") None browser.

Definition loginRequest : Request :=
  createRequest "/api/login" [] "GET" "1.2.3.4" None None browser.

Definition anyRequest : Request :=
  createRequest "/any" [] "GET" "8.8.8.8" None None browser.

Definition extraRequest : Request :=
  createRequest "/__botnetextra" [] "GET" "8.8.8.8" None None browser.

Definition scannerRequest : Request :=
  createRequest "/wp-login.php" [] "GET" "9.9.9.9" None None "curl/8.0.1".

Definition blockRequest : Request :=
  createRequest "/__botnet/block" [] "POST" "1.2.3.4" (Some "test-token")
    (Some (JObj [("ip", JStr "8.8.8.8"); ("reason", JStr "manual-test");
                 ("ttlSeconds", JNum 300)]))
    browser.

Definition statusRequest : Request :=
  createRequest "/__botnet/status" [("ip", "8.8.8.8")] "GET" "1.2.3.4"
    (Some "test-token") None browser.

Definition unblockRequest : Request :=
  createRequest "/__botnet/unblock" [] "POST" "1.2.3.4" (Some "test-token")
    (Some (JObj [("ip", JStr "8.8.8.8")])) browser.


(** A scanner that writes its path and its user agent in capitals. *)
Definition shoutingScanner : Request :=
  createRequest "/WP-Login.PHP" [] "GET" "9.9.9.9" None None "Curl/8.0.1".

(** A store on its fourth operation out of order, in which 1.2.3.4 has
    used up its window: the write of the block record is the one that
    fails. *)
Definition failingBlockWrite : FlakyKV :=
  {| backing := Mock.write t0 (counterKeyAt "1.2.3.4" "window" 60 t0) "2" 65 Mock.new;
     outages := [false; false; false; true] |}.

(** The statuses of a run, when the origin answers 200. *)
Definition statuses (results : list (settled Response)) : list (option Z) :=
  map (fun result =>
         match result with
         | Fulfilled response => Some (statusOf 200 response)
         | Rejected => None
         end)
    results.

(** The reasons of the blocks of a run. *)
Definition reasons (results : list (settled Response)) : list (option json) :=
  map (fun result =>
         match result with
         | Fulfilled response =>
             prop (payloadOf response) "details" ≫= fun details => prop details "reason"
         | Rejected => None
         end)
    results.

(** *** Further notions *)

(** What [isValidIpv4] asks of a part. *)
Definition octetText (part : string) : bool :=
  if negb ((1 <=? String.length part)%nat && (String.length part <=? 3)%nat &&
           Js.forallb_string Js.isDigit part)
  then false
  else match Js.parseInt part with
       | Some value => (0 <=? value) && (value <=? 255)
       | None => false
       end.

(** One call of [incrementCounter] at each instant of [times], in turn:
    the counts returned. *)
Fixpoint incrementCounterAt {K : Type} `{!KVNamespace K} (ip scope : string)
    (windowSeconds : Z) (times : list Z) : Async K (list Z) :=
  match times with
  | [] => ret []
  | now :: later =>
      await count <- incrementCounter ip scope windowSeconds now ;
      await counts <- incrementCounterAt ip scope windowSeconds later ;
      ret (count :: counts)
  end.

(** The instants of the window [windowId] of [windowSeconds] seconds. *)
Definition inWindow (windowSeconds windowId : Z) (now : Z) : Prop :=
  now / 1000 / windowSeconds = windowId.

(** The request of [GET {prefix}/status]. *)
Definition isStatusRoute (request : Request) (config : Config) : Prop :=
  method request = "GET" /\
  pathname (url request) = adminPathPrefix config ++ "/status".

(** The routes of the administrative API. *)
Definition adminRouteNames : list (string * string) :=
  [("GET", "/health"); ("GET", "/status"); ("POST", "/block");
   ("POST", "/unblock"); ("DELETE", "/unblock")].


(** The payload of the status route. *)
Definition statusPayload (ip : string) (details : json) (score : Z) : json :=
  JObj [("ok", JBool true); ("ip", JStr ip);
        ("blocked", JBool (truthy details)); ("details", details);
        ("botScore", JNum score)].

(** A request with the right token for a route the API does not have. *)
Definition unknownRouteRequest : Request :=
  createRequest "/__botnet/nothing" [] "GET" "1.2.3.4" (Some "test-token") None browser.

(** A status request for a text that is no address. *)
Definition statusOfNowhere : Request :=
  createRequest "/__botnet/status" [("ip", "nowhere")] "GET" "1.2.3.4"
    (Some "test-token") None browser.



(* ===================================================================== *)
(** ** Properties *)
(* ===================================================================== *)

(** *** Strings *)

Lemma startsWith_app (p s : string) : Js.startsWith (p ++ s) p = true.
Proof.
  unfold Js.startsWith.
  induction p as [|a p IH]; simpl; [now destruct s|].
  destruct (ascii_dec a a); [exact IH | congruence].
Qed.

Lemma eqb_app_l (p a b : string) : String.eqb (p ++ a) (p ++ b) = String.eqb a b.
Proof.
  induction p as [|c p IH]; simpl; [reflexivity|].
  now rewrite Ascii.eqb_refl.
Qed.

(** *** Numerals *)

Lemma digitsPrefix_numeral (d : Decimal.uint) :
  Js.digitsPrefix (NilEmpty.string_of_uint d) = NilEmpty.string_of_uint d.
Proof. induction d; simpl; congruence. Qed.

(** A numeral that is not empty starts with a digit: nothing is trimmed
    from it and it carries no sign. *)
Lemma parseInt_numeral (d : Decimal.uint) :
  d <> Decimal.Nil ->
  Js.parseInt (NilEmpty.string_of_uint d) = Some (Z.of_uint d).
Proof.
  intros Hd. unfold Js.parseInt.
  destruct d; try congruence; cbn [NilEmpty.string_of_uint Js.trimStart];
    change (Js.isWhiteSpace _) with false; cbv beta iota zeta;
    cbn [Js.digitsPrefix]; change (Js.isDigit _) with true; cbv iota;
    rewrite digitsPrefix_numeral;
    cbn [NilZero.uint_of_string NilEmpty.uint_of_string];
    rewrite NilEmpty.usu; reflexivity.
Qed.

Lemma parseInt_negative_numeral (d : Decimal.uint) :
  d <> Decimal.Nil ->
  Js.parseInt (String "-" (NilEmpty.string_of_uint d)) = Some (- Z.of_uint d).
Proof.
  intros Hd. unfold Js.parseInt.
  cbn [Js.trimStart]. change (Js.isWhiteSpace "-") with false. cbv beta iota zeta.
  rewrite digitsPrefix_numeral.
  destruct d; try congruence;
    cbn [NilEmpty.string_of_uint NilZero.uint_of_string NilEmpty.uint_of_string];
    rewrite NilEmpty.usu; reflexivity.
Qed.

(** [Number.parseInt(String(n), 10)] is [n]. *)
Lemma parseInt_ofNumber (n : Z) : Js.parseInt (Js.ofNumber n) = Some n.
Proof.
  unfold Js.ofNumber.
  destruct n as [|p|p]; [reflexivity| |]; cbn [Z.to_int NilZero.string_of_int];
    pose proof (Unsigned.to_uint_nonnil p) as Hp;
    replace (NilZero.string_of_uint (Pos.to_uint p))
      with (NilEmpty.string_of_uint (Pos.to_uint p)) by (now destruct (Pos.to_uint p));
    [rewrite parseInt_numeral by assumption
    |rewrite parseInt_negative_numeral by assumption];
    unfold Z.of_uint; now rewrite Unsigned.of_to.
Qed.

Lemma truthy_toLowerCase (s : string) : Js.truthy (Js.toLowerCase s) = Js.truthy s.
Proof. now destruct s. Qed.

(** *** Configuration *)

Lemma parsePositiveInteger_positive (value : option string) (fallback : Z) :
  0 < fallback -> 0 < parsePositiveInteger value fallback.
Proof.
  intros Hf. unfold parsePositiveInteger.
  destruct (value ≫= Js.parseInt) as [parsed|]; [|exact Hf].
  destruct (parsed <=? 0) eqn:Hp; [exact Hf | lia].
Qed.

Section Routing.

Context {K : Type} `{!KVNamespace K} `{!JsonParser}.

Implicit Types (request : Request) (env : Env K) (kv : K) (now : Z).

Lemma withStore_ret {A : Type} kv (a : A) :
  withStore kv (ret a) = (Fulfilled a, Some kv).
Proof. reflexivity. Qed.

Lemma returns_ret {A : Type} (P : A -> Prop) (a : A) : P a -> returns (K:=K) P (ret a).
Proof. intros HP kv a' kv' [= <- _]. exact HP. Qed.

Lemma returns_bind {A B : Type} (P : B -> Prop) (m : Async K A) (f : A -> Async K B) :
  (forall a, returns P (f a)) -> returns P (bind m f).
Proof.
  intros Hf kv b kv'. unfold bind.
  destruct (m kv) as [[a|] kv1]; [apply Hf | discriminate].
Qed.

(** The token check succeeds exactly on a present secret presented
    exactly. *)
Lemma isAuthorized_spec request env :
  isAuthorized request (BOTNET_ADMIN_TOKEN env) = true <->
  exists secret, secretOf env = Some secret /\ bearerToken request = Some secret.
Proof.
  unfold isAuthorized, secretOf, bearerToken.
  destruct (BOTNET_ADMIN_TOKEN env) as [secret|]; [|split; [discriminate | intros (? & [=] & _)]].
  destruct (Js.truthy secret) eqn:Hs; simpl;
    [|split; [discriminate | intros (? & [=] & _)]].
  destruct (Js.startsWith _ "Bearer "); simpl;
    [|split; [discriminate | intros (? & _ & [=])]].
  change (String.length "Bearer ") with 7%nat.
  set (token := Js.trim _).
  split.
  - intros [_ Heq%String.eqb_eq]%andb_true_iff. exists secret. now subst.
  - intros (x & [= <-] & [= ->]).
    rewrite String.eqb_refl, andb_true_r.
    destruct secret; [discriminate | reflexivity].
Qed.

(** C8 (as amended): with the store bound, [GET {prefix}/health] answers
    200 with the liveness payload whatever credentials the request carries,
    and leaves the store as it was. *)
Theorem health_needs_no_authentication request env kv now :
  BOTNET_KV env = Some kv ->
  isHealthCheck request (readConfig env) ->
  fetch request env now = (Fulfilled (jsonResponse healthPayload 200), Some kv).
Proof.
  intros Hkv [Hm Hp].
  unfold fetch. rewrite Hp, startsWith_app.
  unfold handleAdminRequest. rewrite Hkv.
  unfold adminRoutes. rewrite Hm, Hp, !String.eqb_refl. reflexivity.
Qed.

(** C6 (as amended): with the store bound, a request under the admin
    prefix other than [GET {prefix}/health] whose credentials are rejected is
    answered 401 whatever its route, and the store is neither read nor
    written. *)
Theorem rejected_credentials_get_401 request env kv now :
  BOTNET_KV env = Some kv ->
  Js.startsWith (pathname (url request)) (adminPathPrefix (readConfig env)) = true ->
  ~ isHealthCheck request (readConfig env) ->
  credentialsRejected request env ->
  fetch request env now =
    (Fulfilled (jsonResponse (errorPayload "unauthorized") 401), Some kv).
Proof.
  intros Hkv Hadmin Hhealth Hcred.
  unfold fetch. rewrite Hadmin.
  unfold handleAdminRequest. rewrite Hkv.
  unfold adminRoutes.
  destruct (String.eqb (method request) "GET" && _) eqn:Hh.
  { exfalso. apply Hhealth.
    apply andb_true_iff in Hh as [Hm%String.eqb_eq Hp%String.eqb_eq]. now split. }
  destruct (isAuthorized request (BOTNET_ADMIN_TOKEN env)) eqn:Hauth; [|reflexivity].
  exfalso. apply isAuthorized_spec in Hauth as (secret & Hs & Ht).
  destruct Hcred as [Hc | [Hc | Hc]]; congruence.
Qed.

(** No response of the administrative API blocks. *)
Lemma adminRoutes_never_block request env config url now :
  returns (fun response => blocks response = false)
    (adminRoutes request env config url now).
Proof.
  unfold adminRoutes, blockIp.
  repeat first
    [ apply returns_ret; reflexivity
    | apply returns_bind; intros ?
    | case_match ].
Qed.

Lemma handleAdminRequest_never_blocks request env config url now response after :
  handleAdminRequest request env config url now = (Fulfilled response, after) ->
  blocks response = false.
Proof.
  unfold handleAdminRequest, withStore. intros Hrun.
  destruct (BOTNET_KV env) as [kv|]; [|now simplify_eq].
  destruct (adminRoutes _ _ _ _ _ kv) as [result kv1] eqn:Hroutes.
  simplify_eq. exact (adminRoutes_never_block _ _ _ _ _ _ _ _ Hroutes).
Qed.

(** C10: a request whose path starts with the admin prefix as a string is
    handled by the administrative API and by nothing else, so that it is
    never answered by a block; with the default prefix that is the case of
    the path [/__botnetextra]. *)
Theorem admin_prefix_is_a_string_prefix request env now :
  Js.startsWith (pathname (url request)) (adminPathPrefix (readConfig env)) = true ->
  fetch request env now =
    handleAdminRequest request env (readConfig env) (url request) now /\
  (forall response after,
     fetch request env now = (Fulfilled response, after) -> blocks response = false) /\
  (forall extra,
     ADMIN_PATH_PREFIX env = None ->
     Js.startsWith ("/__botnet" ++ extra) (adminPathPrefix (readConfig env)) = true).
Proof.
  intros Hadmin.
  assert (Hfetch : fetch request env now =
            handleAdminRequest request env (readConfig env) (url request) now).
  { unfold fetch. now rewrite Hadmin. }
  split; [exact Hfetch|]. split.
  - intros response after. rewrite Hfetch. apply handleAdminRequest_never_blocks.
  - intros extra Hdefault. simpl. rewrite Hdefault. apply (startsWith_app "/__botnet").
Qed.

(** C5: a request whose client address is missing, malformed or on the
    allowlist is forwarded by the decision engine without any operation on
    the store, and no answer to it, from the administrative API either, is a
    block. *)
Theorem unidentified_or_allowlisted_is_forwarded request env now :
  getClientIp request = "" \/
  isValidIp (getClientIp request) = false \/
  getClientIp request ∈ allowlistIps (readConfig env) ->
  (Js.startsWith (pathname (url request)) (adminPathPrefix (readConfig env)) = false ->
   fetch request env now = (Fulfilled (originFetch request), BOTNET_KV env)) /\
  (forall response after,
     fetch request env now = (Fulfilled response, after) -> blocks response = false).
Proof.
  intros Hip.
  assert (Hskip : negb (Js.truthy (getClientIp request)) ||
                  negb (isValidIp (getClientIp request)) ||
                  bool_decide (getClientIp request ∈ allowlistIps (readConfig env)) = true).
  { destruct Hip as [-> | [-> | Hin]]; [reflexivity | apply orb_true_iff; left;
      apply orb_true_r |].
    apply orb_true_iff; right. now apply bool_decide_eq_true. }
  assert (Hengine :
    Js.startsWith (pathname (url request)) (adminPathPrefix (readConfig env)) = false ->
    fetch request env now = (Fulfilled (originFetch request), BOTNET_KV env)).
  { intros Hpath. unfold fetch. rewrite Hpath.
    destruct (BOTNET_KV env) as [kv|]; [|reflexivity]. now rewrite Hskip. }
  split; [exact Hengine|].
  intros response after.
  destruct (Js.startsWith (pathname (url request)) (adminPathPrefix (readConfig env)))
    eqn:Hpath.
  - unfold fetch. rewrite Hpath. apply handleAdminRequest_never_blocks.
  - rewrite (Hengine eq_refl). now intros [= <- _].
Qed.

(** *** The decision engine *)

Lemma isValidIp_truthy (ip : string) : isValidIp ip = true -> Js.truthy ip = true.
Proof. now destruct ip. Qed.

(** What the body of the [try] returns is a block. *)
Lemma inspect_returns_blocks request config url ip now :
  returns (fun returned =>
             match returned with
             | Some response => blocks response = true
             | None => True
             end)
    (inspect request config url ip now).
Proof.
  unfold inspect, blockIp.
  repeat first
    [ apply returns_ret; reflexivity
    | apply returns_bind; intros ?
    | case_match ].
Qed.

Lemma answers_ret {A : Type} (a : A) : answers (ret (K:=K) a).
Proof. intros kv. discriminate. Qed.

Lemma answers_bind {A B : Type} (m : Async K A) (f : A -> Async K B) :
  answers m -> (forall a, answers (f a)) -> answers (bind m f).
Proof.
  intros Hm Hf kv. unfold bind. specialize (Hm kv).
  destruct (m kv) as [[a|] kv']; [apply Hf | now simpl in Hm].
Qed.

(** The body of the [try] rejects only if an operation of the store
    does. *)
Lemma inspect_answers request config url ip now :
  reliable K -> answers (inspect request config url ip now).
Proof.
  intros (Hget & Hput & Hdelete).
  unfold inspect, maybeScoreBotSignals, incrementBotScore, incrementCounter,
    getBlockedIpRecord, blockIp.
  repeat first
    [ apply answers_ret
    | apply answers_bind; [try apply Hget; try apply Hput | intros ?]
    | case_match ].
Qed.

Lemma watches_ret {A : Type} (a : A) : watches (K:=K) (ret a) (ret a).
Proof. now intros []. Qed.

Lemma watches_bind {A B : Type} (m : Async K A) m' (f : A -> Async K B) f' :
  watches m m' -> (forall a, watches (f a) (f' a)) -> watches (bind m f) (bind m' f').
Proof.
  intros Hm Hf this. unfold bind at 1. rewrite Hm. unfold watch at 1 2, bind.
  destruct (m (watched this)) as [[a|] kv1]; [|reflexivity].
  now rewrite Hf.
Qed.

Lemma watches_operation {A : Type} (operation : Async K A) : watches operation (watch operation).
Proof. now intros this. Qed.

(** The inspection runs on the store under watch as it does on the
    store. *)
Lemma inspect_watched request config url ip now :
  watches (inspect (K:=K) request config url ip now)
          (inspect (K:=Watched K) request config url ip now).
Proof.
  unfold inspect, maybeScoreBotSignals, incrementBotScore, incrementCounter,
    getBlockedIpRecord, blockIp.
  repeat first
    [ apply watches_ret
    | apply watches_operation
    | apply watches_bind; [|intros ?]
    | case_match ].
Qed.

(** C3: a request that reaches the decision engine is always answered,
    by the origin or by a block, whatever the operations of the store do;
    and whenever an operation made on the store for the request rejects, be
    it the read of the block record, a read or a write of a counter or of the
    score, or the write of a block record, the request is forwarded to the
    origin.  The store under watch tells whether an operation has rejected,
    and the request is answered on it as on the store itself. *)
Theorem store_failures_fail_open request env kv now :
  BOTNET_KV env = Some kv ->
  Js.startsWith (pathname (url request)) (adminPathPrefix (readConfig env)) = false ->
  exists result after failure,
    fetch request env now = (result, Some after) /\
    fetch request (withKV env (Some {| watched := kv; failed := false |})) now =
      (result, Some {| watched := after; failed := failure |}) /\
    (exists response,
       result = Fulfilled response /\
       (response = originFetch request \/ blocks response = true)) /\
    (failure = true -> result = Fulfilled (originFetch request)).
Proof.
  intros Hkv Hpath. unfold fetch.
  change (readConfig (withKV env _)) with (readConfig env).
  rewrite Hpath, Hkv. cbn [BOTNET_KV withKV].
  destruct (_ || _ || _).
  { exists (Fulfilled (originFetch request)), kv, false. eauto 10. }
  unfold withStore, bind, tryCatch, ret.
  rewrite inspect_watched. unfold watch. cbn [watched failed].
  destruct (inspect _ _ _ _ _ kv) as [[[response|]|] kv1] eqn:Hrun.
  - exists (Fulfilled response), kv1, false. repeat split; [|discriminate].
    exists response. split; [reflexivity|]. right.
    exact (inspect_returns_blocks _ _ _ _ _ _ _ _ Hrun).
  - exists (Fulfilled (originFetch request)), kv1, false. eauto 10.
  - exists (Fulfilled (originFetch request)), kv1, true. eauto 10.
Qed.

(** C1 (as amended): outside the admin prefix, a request from a valid
    address that is not allowlisted, for which the store holds a block
    record, is answered by the block response carrying that record, whatever
    its path; the only operation on the store is the read of the record. *)
Theorem live_record_blocks request env kv now raw kv' :
  BOTNET_KV env = Some kv ->
  Js.startsWith (pathname (url request)) (adminPathPrefix (readConfig env)) = false ->
  isValidIp (getClientIp request) = true ->
  getClientIp request ∉ allowlistIps (readConfig env) ->
  kv_get now (blockedKey (getClientIp request)) kv = (Fulfilled (Some raw), kv') ->
  Js.truthy raw = true ->
  truthy (decodeRecord raw) = true ->
  fetch request env now =
    (Fulfilled (blockedResponse (getClientIp request) (decodeRecord raw)), Some kv').
Proof.
  intros Hkv Hpath Hvalid Hallow Hget Hraw Hrecord.
  unfold fetch. rewrite Hpath, Hkv.
  rewrite (isValidIp_truthy _ Hvalid), Hvalid. simpl.
  rewrite bool_decide_eq_false_2 by assumption.
  unfold withStore, bind, tryCatch, inspect, getBlockedIpRecord, bind.
  rewrite Hget, Hraw. simpl.
  unfold decodeRecord in *.
  destruct (JSON_parse raw) as [record|]; unfold ret; now rewrite Hrecord.
Qed.

(** *** Bodies of the write routes *)




End Routing.

(** *** The signals of a request, as the specification words them *)

Lemma prefix_spec (p s : string) :
  String.prefix p s = true <-> exists after, s = p ++ after.
Proof.
  revert s. induction p as [|c p IH]; intros s.
  - split; [intros _; now exists s | now destruct s].
  - destruct s as [|d s]; simpl.
    + split; [discriminate | intros [after [=]]].
    + destruct (ascii_dec c d) as [<- | Hne].
      * rewrite IH. split; intros [after Heq]; exists after; [now rewrite Heq | now injection Heq].
      * split; [discriminate | intros [after [= Hcd _]]; now destruct Hne].
Qed.

(** [includes] finds the substrings. *)
Lemma includes_spec (s p : string) : Js.includes s p = true <-> contains s p.
Proof.
  unfold contains. induction s as [|c s IH].
  - cbn [Js.includes]. rewrite orb_false_r, prefix_spec. split.
    + intros [after Heq]. now exists "", after.
    + intros (before & after & Heq). destruct before; [now exists after|discriminate].
  - cbn [Js.includes]. rewrite orb_true_iff, prefix_spec, IH. split.
    + intros [[after Heq] | (before & after & Heq)].
      * now exists "", after.
      * exists (String c before), after. simpl. now rewrite Heq.
    + intros (before & after & Heq). destruct before as [|d before].
      * left. now exists after.
      * right. injection Heq as _ Heq. now exists before, after.
Qed.

Lemma matchesAnyPattern_spec (target : string) (patterns : list string) :
  matchesAnyPattern target patterns = true <->
  exists pattern, In pattern patterns /\ contains target pattern.
Proof.
  unfold matchesAnyPattern. rewrite existsb_exists.
  split; intros (pattern & Hin & Hp); exists pattern; (split; [exact Hin|]);
    now apply includes_spec.
Qed.

Lemma lowerChar_spec (c : ascii) : Js.lowerChar c = lowercaseUnit c.
Proof. destruct c as [[] [] [] [] [] [] [] []]; reflexivity. Qed.

(** [toLowerCase] puts a text in lower case. *)
Lemma toLowerCase_spec (s : string) : Js.toLowerCase s = lowercase s.
Proof.
  unfold lowercase. induction s as [|c s IH]; [reflexivity|].
  cbn [Js.toLowerCase list_ascii_of_string map string_of_list_ascii].
  now rewrite lowerChar_spec, IH.
Qed.

(** *** The worker over the in-memory store *)

Lemma truthy_ofNumber (n : Z) : Js.truthy (Js.ofNumber n) = true.
Proof.
  pose proof (parseInt_ofNumber n) as Hn.
  destruct (Js.ofNumber n); [discriminate | reflexivity].
Qed.

Lemma blockedKey_ne_botScoreKey (ip ip' : string) : blockedKey ip <> botScoreKey ip'.
Proof. discriminate. Qed.



Section InMemory.

Context `{!JsonParser}.

Implicit Types (request : Request) (env : Env MockKV) (kv : MockKV) (now : Z).

Lemma get_eq now key kv :
  kv_get now key kv = (Fulfilled (Mock.read now key kv), Mock.swept now key kv).
Proof.
  unfold Mock.read, Mock.swept. simpl. unfold Mock.get.
  destruct (store kv !! key) as [entry|]; [|reflexivity].
  destruct (expiresAtMs entry) as [expires|]; [|reflexivity].
  now destruct (expires <=? now).
Qed.

Lemma put_eq now key val ttl kv :
  kv_put now key val ttl kv = (Fulfilled tt, Mock.write now key val ttl kv).
Proof. simpl. unfold Mock.put. simpl. now rewrite parseInt_ofNumber. Qed.

Lemma delete_eq now key kv :
  kv_delete now key kv = (Fulfilled tt, Mock.without key kv).
Proof. reflexivity. Qed.

Lemma write_swept now now' key val ttl kv :
  Mock.write now key val ttl (Mock.swept now' key kv) = Mock.write now key val ttl kv.
Proof.
  unfold Mock.write, Mock.swept, Mock.get.
  destruct (store kv !! key) as [entry|]; [|reflexivity].
  destruct (expiresAtMs entry) as [expires|]; [|reflexivity].
  destruct (expires <=? now'); [|reflexivity].
  simpl. now rewrite insert_delete_eq.
Qed.

Lemma read_absent now key kv :
  store kv !! key = None -> Mock.read now key kv = None /\ Mock.swept now key kv = kv.
Proof. intros Hk. unfold Mock.read, Mock.swept, Mock.get. now rewrite Hk. Qed.

Lemma read_write_live now now' key val ttl kv :
  now' < now + ttl * 1000 ->
  Mock.read now' key (Mock.write now key val ttl kv) = Some val /\
  Mock.swept now' key (Mock.write now key val ttl kv) = Mock.write now key val ttl kv.
Proof.
  intros Hlive. unfold Mock.read, Mock.swept, Mock.get, Mock.write. simpl.
  rewrite lookup_insert_eq. simpl.
  destruct (now + ttl * 1000 <=? now') eqn:Hexp; [lia | now split].
Qed.


(** Unblocking removes the two entries of the address. *)
Lemma unblock_run request env kv now text payload rawIp :
  BOTNET_KV env = Some kv ->
  isAuthorized request (BOTNET_ADMIN_TOKEN env) = true ->
  isUnblockRoute request (readConfig env) ->
  body request = Some text ->
  JSON_parse text = Some payload ->
  prop payload "ip" = Some (JStr rawIp) ->
  isValidIp (Js.trim rawIp) = true ->
  fetch request env now =
    (Fulfilled
       (jsonResponse
          (JObj [("ok", JBool true); ("blocked", JBool false); ("ip", JStr (Js.trim rawIp))])
          200),
     Some (Mock.without (botScoreKey (Js.trim rawIp))
             (Mock.without (blockedKey (Js.trim rawIp)) kv))).
Proof.
  intros Hkv Hauth [Hm Hp] Hbody Hparse Hprop Hvalid.
  unfold fetch. rewrite Hp, startsWith_app.
  unfold handleAdminRequest. rewrite Hkv.
  unfold adminRoutes. rewrite Hauth, Hp, !eqb_app_l, String.eqb_refl.
  unfold readJsonBody. rewrite Hbody, Hparse, Hprop.
  assert (Htruthy : truthy payload = true) by (destruct payload; try discriminate; reflexivity).
  rewrite Htruthy, Hvalid.
  destruct Hm as [-> | ->]; reflexivity.
Qed.

(** C7 (as amended): with the store bound, an unblock request with the
    right token and a valid address removes the block record and the bot
    score of the address and answers 200, whether or not they were there;
    a second call answers the same and leaves the same store. *)
Theorem unblock_is_idempotent request env kv now text payload rawIp :
  BOTNET_KV env = Some kv ->
  isAuthorized request (BOTNET_ADMIN_TOKEN env) = true ->
  isUnblockRoute request (readConfig env) ->
  body request = Some text ->
  JSON_parse text = Some payload ->
  prop payload "ip" = Some (JStr rawIp) ->
  isValidIp (Js.trim rawIp) = true ->
  let ip := Js.trim rawIp in
  let after := Mock.without (botScoreKey ip) (Mock.without (blockedKey ip) kv) in
  let response :=
    jsonResponse (JObj [("ok", JBool true); ("blocked", JBool false); ("ip", JStr ip)]) 200 in
  fetch request env now = (Fulfilled response, Some after) /\
  store after !! blockedKey ip = None /\
  store after !! botScoreKey ip = None /\
  fetch request (withKV env (Some after)) now = (Fulfilled response, Some after).
Proof.
  intros Hkv Hauth Hroute Hbody Hparse Hprop Hvalid ip after response.
  assert (Hblocked : store after !! blockedKey ip = None).
  { unfold after, Mock.without. simpl.
    rewrite lookup_delete_ne by (apply not_eq_sym, blockedKey_ne_botScoreKey).
    apply lookup_delete_eq. }
  assert (Hscore : store after !! botScoreKey ip = None).
  { unfold after, Mock.without. simpl. apply lookup_delete_eq. }
  split; [|split; [exact Hblocked | split; [exact Hscore|]]].
  - eapply unblock_run; eassumption.
  - rewrite (unblock_run request (withKV env (Some after)) after now text payload rawIp
               eq_refl Hauth Hroute Hbody Hparse Hprop Hvalid).
    do 2 f_equal. fold ip. clearbody after. unfold Mock.without. cbn [store].
    rewrite (delete_id (store after) (blockedKey ip)) by exact Hblocked.
    rewrite (delete_id (store after) (botScoreKey ip)) by exact Hscore.
    now destruct after.
Qed.

(** The signals the worker collects are those of the specification. *)
Lemma botSignals_spec request url config :
  botSignals request url config =
    (signalDelta request url config, signalNames request url config).
Proof.
  unfold botSignals, signalDelta, signalNames.
  rewrite truthy_toLowerCase.
  repeat case_match; simplify_eq; try reflexivity; f_equal; lia.
Qed.

Lemma signalDelta_nonneg {K : Type} request url (anyEnv : Env K) :
  (signalDelta request url (readConfig anyEnv) <=? 0) =
  (signalDelta request url (readConfig anyEnv) =? 0).
Proof.
  unfold signalDelta.
  assert (Hp : 0 < botScorePathWeight (readConfig anyEnv))
    by (now apply parsePositiveInteger_positive).
  assert (Hu : 0 < botScoreUserAgentWeight (readConfig anyEnv))
    by (now apply parsePositiveInteger_positive).
  repeat case_match; lia.
Qed.

Lemma incrementBotScore_mock ip delta ttl now kv :
  incrementBotScore ip delta ttl now kv =
    (Fulfilled (scoreOf now ip kv + delta),
     Mock.write now (botScoreKey ip) (Js.ofNumber (scoreOf now ip kv + delta)) ttl kv).
Proof.
  unfold incrementBotScore, scoreOf, getBotScore, bind.
  rewrite !get_eq.
  destruct (Mock.read now (botScoreKey ip) kv) as [raw|];
    [destruct (Js.truthy raw); cbn [negb]; [destruct (Js.parseInt raw)|]|];
    rewrite put_eq, write_swept; reflexivity.
Qed.

Lemma maybeScoreBotSignals_mock {K : Type} request url ip (anyEnv : Env K) now kv :
  let config := readConfig anyEnv in
  let delta := signalDelta request url config in
  let score := scoreOf now ip kv + delta in
  maybeScoreBotSignals request url ip config now kv =
    (if delta =? 0 then (Fulfilled shouldNotBlock, kv)
     else (Fulfilled
             (if botScoreBlockThreshold config <=? score
              then shouldBlock
                     (botRecord now score (botScoreBlockThreshold config) delta
                        (signalNames request url config) (pathname url))
              else shouldNotBlock),
           Mock.write now (botScoreKey ip) (Js.ofNumber score)
             (botScoreTtlSeconds config) kv)).
Proof.
  intros config delta score.
  unfold maybeScoreBotSignals. rewrite botSignals_spec.
  fold config delta. unfold delta, config at 1. rewrite signalDelta_nonneg.
  fold config delta.
  destruct (delta =? 0); [reflexivity|].
  unfold bind. rewrite incrementBotScore_mock. fold score.
  destruct (score <? botScoreBlockThreshold config) eqn:Hlt;
    destruct (botScoreBlockThreshold config <=? score) eqn:Hle; try lia; reflexivity.
Qed.

(** C4: the bot scorer adds the path weight when the lowercased path
    contains a suspicious-path pattern as a substring, and the user-agent
    weight once, for a missing user agent or else for a user agent whose lower
    case contains a bad-user-agent pattern.  With a delta of 0 it leaves the
    store alone and does not block; otherwise it stores the score of the
    address increased by the delta, to expire after [botScoreTtlSeconds], and
    blocks, with the score, the threshold, the delta, the signals and the
    path, exactly when the new score reaches [botScoreBlockThreshold].  The
    scores and the expiry are taken where the numbers of the platform are
    exact. *)
Theorem bot_scorer_accumulates request url ip env now kv :
  let config := readConfig env in
  let threshold := botScoreBlockThreshold config in
  exists pathDelta agentDelta pathSignal agentSignal,
    (suspiciousPath url config /\
       pathDelta = botScorePathWeight config /\ pathSignal = ["suspicious_path"] \/
     ~ suspiciousPath url config /\ pathDelta = 0 /\ pathSignal = []) /\
    (missingUserAgent request /\
       agentDelta = botScoreUserAgentWeight config /\ agentSignal = ["missing_user_agent"] \/
     ~ missingUserAgent request /\ badUserAgent request config /\
       agentDelta = botScoreUserAgentWeight config /\ agentSignal = ["bad_user_agent"] \/
     ~ missingUserAgent request /\ ~ badUserAgent request config /\
       agentDelta = 0 /\ agentSignal = []) /\
    let delta := pathDelta + agentDelta in
    let score := scoreOf now ip kv + delta in
    let after :=
      Mock.write now (botScoreKey ip) (Js.ofNumber score) (botScoreTtlSeconds config) kv in
    (delta = 0 ->
     maybeScoreBotSignals request url ip config now kv = (Fulfilled shouldNotBlock, kv)) /\
    (delta <> 0 ->
     safeInteger (scoreOf now ip kv) -> safeInteger delta -> safeInteger score ->
     exactExpiry now (botScoreTtlSeconds config) ->
     maybeScoreBotSignals request url ip config now kv =
       (Fulfilled
          (if threshold <=? score
           then shouldBlock
                  (botRecord now score threshold delta (pathSignal ++ agentSignal)%list
                     (pathname url))
           else shouldNotBlock),
        after) /\
     scoreOf now ip after = score).
Proof.
  intros config threshold.
  pose proof (maybeScoreBotSignals_mock request url ip env now kv) as Hrun.
  cbv zeta in Hrun. fold config threshold in Hrun.
  unfold signalDelta, signalNames in Hrun.
  set (userAgent := orElse (user_agent (headers request)) "") in *.
  assert (Hpath : matchesAnyPattern (Js.toLowerCase (pathname url))
                    (suspiciousPathPatterns config) = true <-> suspiciousPath url config).
  { rewrite matchesAnyPattern_spec, toLowerCase_spec. reflexivity. }
  assert (Hmissing : Js.truthy userAgent = false <-> missingUserAgent request).
  { unfold userAgent, orElse, missingUserAgent.
    destruct (user_agent (headers request)) as [[|c ua]|]; simpl;
      split; auto; try discriminate; intros [[=] | [=]]. }
  assert (Hbad : Js.truthy userAgent = true ->
                 (matchesAnyPattern (Js.toLowerCase userAgent) (badUserAgentPatterns config) = true
                  <-> badUserAgent request config)).
  { intros Hpresent. rewrite matchesAnyPattern_spec, toLowerCase_spec.
    unfold badUserAgent, userAgent, orElse in *.
    destruct (user_agent (headers request)) as [[|c ua]|]; try discriminate.
    cbn [Js.truthy]. split.
    - intros (pattern & Hin & Hp). now exists (String c ua), pattern.
    - intros (ua' & pattern & [= <-] & Hin & Hp). now exists pattern. }
  destruct (matchesAnyPattern (Js.toLowerCase (pathname url)) (suspiciousPathPatterns config))
    eqn:Hp.
  all: destruct (Js.truthy userAgent) eqn:Hua; cbn [negb] in Hrun.
  all: try destruct (matchesAnyPattern (Js.toLowerCase userAgent) (badUserAgentPatterns config))
         eqn:Hb.
  all: eexists _, _, _, _.
  all: (split;
        [ first [ left; split; [now apply Hpath | split; reflexivity]
                | right; split; [rewrite <- Hpath; congruence | split; reflexivity] ]
        | split;
          [ first [ left; split; [now apply Hmissing | split; reflexivity]
                  | right; left; split; [rewrite <- Hmissing; congruence|];
                    split; [now apply (Hbad eq_refl) | split; reflexivity]
                  | right; right; split; [rewrite <- Hmissing; congruence|];
                    split; [rewrite <- (Hbad eq_refl); congruence | split; reflexivity] ]
          | ] ]).
  all: cbv zeta; split;
    [ intros Hzero; rewrite Hrun; apply Z.eqb_eq in Hzero; now rewrite Hzero
    | intros Hnonzero _ _ _ _; apply Z.eqb_neq in Hnonzero;
      rewrite Hrun, Hnonzero; split; [reflexivity|];
      assert (Httl : 0 < botScoreTtlSeconds config)
        by (now apply parsePositiveInteger_positive);
      unfold scoreOf at 1; unfold getBotScore, bind; rewrite get_eq;
      match goal with
      | |- context [Mock.read _ _ (Mock.write _ _ ?text ?ttl _)] =>
          destruct (read_write_live now now (botScoreKey ip) text ttl kv) as [-> _]; [lia|]
      end;
      now rewrite truthy_ofNumber, parseInt_ofNumber ].
Qed.

(** *** The window limiter over the in-memory store *)

Lemma nextCount_ofNumber (n : Z) : nextCount (Some (Js.ofNumber n)) = n + 1.
Proof. unfold nextCount. now rewrite truthy_ofNumber, parseInt_ofNumber. Qed.

Lemma incrementCounter_mock ip scope windowSeconds now kv :
  let key := counterKeyAt ip scope windowSeconds now in
  let next := nextCount (Mock.read now key kv) in
  incrementCounter ip scope windowSeconds now kv =
    (Fulfilled next, Mock.write now key (Js.ofNumber next) (windowSeconds + 5) kv).
Proof.
  intros key next. unfold incrementCounter, bind. fold (counterKeyAt ip scope windowSeconds now).
  fold key. rewrite get_eq. fold next. unfold next, nextCount.
  destruct (Mock.read now key kv) as [raw|];
    [destruct (Js.truthy raw); [destruct (Js.parseInt raw)|]|];
    rewrite put_eq, write_swept; reflexivity.
Qed.

Lemma blockIp_mock ip record ttl now kv :
  blockIp ip record ttl now kv =
    (Fulfilled tt, Mock.write now (blockedKey ip) (JSON_stringify record) ttl kv).
Proof. unfold blockIp. apply put_eq. Qed.









Lemma read_write_eq now now' key val ttl kv :
  Mock.read now' key (Mock.write now key val ttl kv) =
    if now + ttl * 1000 <=? now' then None else Some val.
Proof.
  unfold Mock.read, Mock.get, Mock.write. simpl.
  rewrite lookup_insert_eq. simpl.
  now destruct (now + ttl * 1000 <=? now').
Qed.










End InMemory.

(* ===================================================================== *)
(** ** The test suite, run on the embedding *)
(* ===================================================================== *)

(** [rate limit auto-blocks after threshold is exceeded] *)
Example test_rate_limit :
  let results :=
    serve (createEnv Mock.new) [(loginRequest, t0); (loginRequest, t0); (loginRequest, t0)] in
  statuses results = [Some 200; Some 200; Some 403] /\
  reasons results = [None; None; Some (JStr "rate_limit_window")].
Proof. vm_compute. split; reflexivity. Qed.

(** [bot signature scoring blocks suspicious scanner traffic] *)
Example test_bot_signature :
  let results := serve (botTestEnv Mock.new) [(scannerRequest, t0)] in
  statuses results = [Some 403] /\ reasons results = [Some (JStr "bot_signature")].
Proof. vm_compute. split; reflexivity. Qed.

(** [admin API can block and unblock an IP] *)
Example test_admin_block_unblock :
  let results :=
    serve (createEnv Mock.new)
      [(blockRequest, t0); (anyRequest, t0); (statusRequest, t0); (unblockRequest, t0);
       (anyRequest, t0)] in
  statuses results = [Some 200; Some 403; Some 200; Some 200; Some 200] /\
  (fun result =>
     match result with
     | Some (Fulfilled response) => prop (payloadOf response) "blocked"
     | _ => None
     end) (results !! 2%nat) = Some (JBool true).
Proof. vm_compute. split; reflexivity. Qed.

(** [admin endpoints reject unauthorized requests] *)
Example test_unauthorized :
  fst (fetch statusWrongToken (createEnv Mock.new) t0) =
    Fulfilled (jsonResponse (errorPayload "unauthorized") 401).
Proof. vm_compute. reflexivity. Qed.

(* ===================================================================== *)
(** ** Instances of the properties, and where the specification overreaches *)
(* ===================================================================== *)

(** Decides by evaluation that an address is not on an allowlist. *)
Ltac not_listed :=
  lazymatch goal with
  | |- ?ip ∉ ?allowlist =>
      apply (bool_decide_eq_false_1 (ip ∈ allowlist)); vm_compute; reflexivity
  end.

(** C1, as the specification states it, fails: the address 8.8.8.8 is
    valid, is not allowlisted and has a live block record, and its request
    to the health route of the administrative API is answered 200. *)
Lemma blocked_address_reaches_health :
  isValidIp (getClientIp healthRequest) = true /\
  (getClientIp healthRequest ∉ allowlistIps (readConfig (createEnv blockedStore))) /\
  kv_get t0 (blockedKey (getClientIp healthRequest)) blockedStore =
    (Fulfilled (Some (JSON_stringify manualRecord)), blockedStore) /\
  decodeRecord (JSON_stringify manualRecord) = manualRecord /\
  fetch healthRequest (createEnv blockedStore) t0 =
    (Fulfilled (jsonResponse healthPayload 200), Some blockedStore) /\
  ~ fetch healthRequest (createEnv blockedStore) t0 =
      (Fulfilled (blockedResponse "8.8.8.8" manualRecord), Some blockedStore).
Proof.
  split; [reflexivity|].
  split; [not_listed|].
  split; [vm_compute; reflexivity|].
  split; [vm_compute; reflexivity|].
  assert (Hrun : fetch healthRequest (createEnv blockedStore) t0 =
                   (Fulfilled (jsonResponse healthPayload 200), Some blockedStore))
    by (vm_compute; reflexivity).
  split; [exact Hrun|]. rewrite Hrun. discriminate.
Qed.

Lemma live_record_blocks_witness :
  fetch anyRequest (createEnv blockedStore) t0 =
    (Fulfilled (blockedResponse "8.8.8.8" manualRecord), Some blockedStore).
Proof.
  change "8.8.8.8" with (getClientIp anyRequest).
  replace manualRecord with (decodeRecord (JSON_stringify manualRecord))
    by (vm_compute; reflexivity).
  apply (live_record_blocks anyRequest (createEnv blockedStore) blockedStore t0
           (JSON_stringify manualRecord) blockedStore).
  - reflexivity.
  - vm_compute; reflexivity.
  - vm_compute; reflexivity.
  - not_listed.
  - vm_compute; reflexivity.
  - vm_compute; reflexivity.
  - vm_compute; reflexivity.
Defined.



Lemma store_failures_fail_open_witness :
  exists after,
    fetch loginRequest (withKV (createEnv Mock.new) (Some failingBlockWrite)) t0 =
      (Fulfilled (originFetch loginRequest), Some after) /\
    fetch loginRequest
      (withKV (createEnv Mock.new) (Some {| watched := failingBlockWrite; failed := false |}))
      t0 =
      (Fulfilled (originFetch loginRequest), Some {| watched := after; failed := true |}).
Proof.
  destruct (store_failures_fail_open loginRequest
              (withKV (createEnv Mock.new) (Some failingBlockWrite)) failingBlockWrite t0
              eq_refl eq_refl)
    as (result & after & failure & Hrun & Hwatched & _ & Hforwarded).
  assert (Hfailed : failure = true).
  { apply (f_equal snd) in Hwatched. vm_compute in Hwatched. now injection Hwatched. }
  exists after. rewrite <- (Hforwarded Hfailed), <- Hfailed. split; assumption.
Defined.

Lemma bot_scorer_accumulates_witness :
  maybeScoreBotSignals shoutingScanner (url shoutingScanner) "9.9.9.9"
    (readConfig (botTestEnv Mock.new)) t0 Mock.new =
    (Fulfilled
       (shouldBlock
          (botRecord t0 5 5 5 ["suspicious_path"; "bad_user_agent"] "/WP-Login.PHP")),
     Mock.write t0 (botScoreKey "9.9.9.9") (Js.ofNumber 5) 900 Mock.new).
Proof.
  destruct (bot_scorer_accumulates shoutingScanner (url shoutingScanner) "9.9.9.9"
              (botTestEnv Mock.new) t0 Mock.new)
    as (pathDelta & agentDelta & pathSignal & agentSignal & Hpath & Hagent & _ & Hscored).
  assert (Hsuspicious : suspiciousPath (url shoutingScanner) (readConfig (botTestEnv Mock.new))).
  { exists "/wp-login.php". split; [vm_compute; tauto|]. now exists "", "". }
  assert (Hbad : badUserAgent shoutingScanner (readConfig (botTestEnv Mock.new))).
  { exists "Curl/8.0.1", "curl/". split; [reflexivity|]. split; [vm_compute; tauto|].
    now exists "", "8.0.1". }
  destruct Hpath as [(_ & -> & ->) | (Hnot & _)]; [|now destruct Hnot].
  destruct Hagent as [([[=] | [=]] & _) | [(_ & _ & -> & ->) | (_ & Hnot & _)]];
    [|now destruct Hnot].
  apply Hscored.
  - vm_compute; discriminate.
  - vm_compute; split; discriminate.
  - vm_compute; split; discriminate.
  - vm_compute; split; discriminate.
  - vm_compute; repeat split; discriminate.
Defined.

(** When the write of the block record fails, the request that exceeded
    the window limit is forwarded; the next one is blocked. *)
Example block_write_failure_forwards :
  statuses
    (serve
       (withKV (createEnv Mock.new)
          (Some {| backing := Mock.new; outages := replicate 13 false ++ [true] |}))
       [(loginRequest, t0); (loginRequest, t0); (loginRequest, t0); (loginRequest, t0)]) =
    [Some 200; Some 200; Some 200; Some 403].
Proof. vm_compute. reflexivity. Qed.

(** The bot-signature scenario of the specification: with threshold 5 and
    weights 3 and 2, one request to a suspicious path with a bad user agent
    adds 5 and is blocked. *)
Example bot_scorer_blocks_at_threshold :
  signalDelta scannerRequest (url scannerRequest) (readConfig (botTestEnv Mock.new)) = 5 /\
  fst (maybeScoreBotSignals scannerRequest (url scannerRequest) "9.9.9.9"
         (readConfig (botTestEnv Mock.new)) t0 Mock.new) =
    Fulfilled
      (shouldBlock
         (botRecord t0 5 5 5 ["suspicious_path"; "bad_user_agent"] "/wp-login.php")).
Proof. split; vm_compute; reflexivity. Qed.

Lemma unidentified_or_allowlisted_is_forwarded_witness :
  (getClientIp anyRequest ∈ allowlistIps (readConfig (allowlistingEnv blockedStore))) /\
  Mock.read t0 (blockedKey "8.8.8.8") blockedStore = Some (JSON_stringify manualRecord) /\
  fetch anyRequest (allowlistingEnv blockedStore) t0 =
    (Fulfilled (originFetch anyRequest), Some blockedStore).
Proof.
  assert (Hlisted :
    getClientIp anyRequest ∈ allowlistIps (readConfig (allowlistingEnv blockedStore))).
  { apply (bool_decide_unpack _). vm_compute. exact I. }
  split; [exact Hlisted|]. split; [vm_compute; reflexivity|].
  apply (proj1 (unidentified_or_allowlisted_is_forwarded anyRequest
                  (allowlistingEnv blockedStore) t0 (or_intror (or_intror Hlisted)))).
  vm_compute; reflexivity.
Defined.

(** C6, as the specification states it, fails: with no store bound, a
    status request with a wrong token is answered 500, not 401. *)
Lemma wrong_token_without_store_gets_500 :
  Js.startsWith (pathname (url statusWrongToken))
    (adminPathPrefix (readConfig envWithoutStore)) = true /\
  ~ isHealthCheck statusWrongToken (readConfig envWithoutStore) /\
  credentialsRejected statusWrongToken envWithoutStore /\
  fetch statusWrongToken envWithoutStore t0 =
    (Fulfilled (jsonResponse (errorPayload "BOTNET_KV binding is missing") 500), None).
Proof.
  split; [vm_compute; reflexivity|].
  split; [intros [_ Hpath]; vm_compute in Hpath; discriminate|].
  split; [right; right; vm_compute; discriminate|].
  vm_compute; reflexivity.
Qed.

Lemma rejected_credentials_get_401_witness :
  credentialsRejected statusWrongToken (createEnv Mock.new) /\
  fetch statusWrongToken (createEnv Mock.new) t0 =
    (Fulfilled (jsonResponse (errorPayload "unauthorized") 401), Some Mock.new).
Proof.
  assert (Hrejected : credentialsRejected statusWrongToken (createEnv Mock.new))
    by (right; right; vm_compute; discriminate).
  split; [exact Hrejected|].
  apply (rejected_credentials_get_401 statusWrongToken (createEnv Mock.new) Mock.new t0).
  - reflexivity.
  - vm_compute; reflexivity.
  - intros [_ Hpath]. vm_compute in Hpath. discriminate.
  - exact Hrejected.
Defined.

(** C7, as the specification states it, fails: with no store bound, an
    unblock request with the right token and a valid address is answered
    500, not 200. *)
Lemma unblock_without_store_gets_500 :
  isAuthorized unblockRequest (BOTNET_ADMIN_TOKEN envWithoutStore) = true /\
  isUnblockRoute unblockRequest (readConfig envWithoutStore) /\
  readJsonBody unblockRequest = JObj [("ip", JStr "8.8.8.8")] /\
  isValidIp "8.8.8.8" = true /\
  fetch unblockRequest envWithoutStore t0 =
    (Fulfilled (jsonResponse (errorPayload "BOTNET_KV binding is missing") 500), None).
Proof.
  split; [vm_compute; reflexivity|].
  split; [split; [left|]; vm_compute; reflexivity|].
  repeat split; vm_compute; reflexivity.
Qed.

Lemma unblock_is_idempotent_witness :
  store blockedStore !! blockedKey "8.8.8.8" <> None /\
  fetch unblockRequest (createEnv blockedStore) t0 =
    (Fulfilled
       (jsonResponse
          (JObj [("ok", JBool true); ("blocked", JBool false); ("ip", JStr "8.8.8.8")]) 200),
     Some Mock.new) /\
  fetch unblockRequest (createEnv Mock.new) t0 =
    (Fulfilled
       (jsonResponse
          (JObj [("ok", JBool true); ("blocked", JBool false); ("ip", JStr "8.8.8.8")]) 200),
     Some Mock.new).
Proof.
  split; [vm_compute; discriminate|].
  pose proof (unblock_is_idempotent unblockRequest (createEnv blockedStore) blockedStore t0
                (JSON_stringify (JObj [("ip", JStr "8.8.8.8")]))
                (JObj [("ip", JStr "8.8.8.8")]) "8.8.8.8"
                eq_refl) as Hunblock.
  assert (Hafter :
    Mock.without (botScoreKey (Js.trim "8.8.8.8"))
      (Mock.without (blockedKey (Js.trim "8.8.8.8")) blockedStore) = Mock.new)
    by (vm_compute; reflexivity).
  cbv zeta in Hunblock. rewrite Hafter in Hunblock.
  destruct Hunblock as (Hfirst & _ & _ & Hsecond).
  - vm_compute; reflexivity.
  - split; [left|]; vm_compute; reflexivity.
  - reflexivity.
  - vm_compute; reflexivity.
  - reflexivity.
  - vm_compute; reflexivity.
  - split; [exact Hfirst | exact Hsecond].
Defined.

(** C8, as the specification states it, fails: with no store bound, the
    health route is answered 500. *)
Lemma health_without_store_gets_500 :
  isHealthCheck anonymousHealthRequest (readConfig envWithoutStore) /\
  fetch anonymousHealthRequest envWithoutStore t0 =
    (Fulfilled (jsonResponse (errorPayload "BOTNET_KV binding is missing") 500), None).
Proof. repeat split; vm_compute; reflexivity. Qed.

Lemma health_needs_no_authentication_witness :
  authorization (headers anonymousHealthRequest) = None /\
  fetch anonymousHealthRequest (createEnv Mock.new) t0 =
    (Fulfilled (jsonResponse healthPayload 200), Some Mock.new).
Proof.
  split; [reflexivity|].
  apply (health_needs_no_authentication anonymousHealthRequest (createEnv Mock.new)
           Mock.new t0).
  - reflexivity.
  - split; vm_compute; reflexivity.
Defined.



Lemma admin_prefix_is_a_string_prefix_witness :
  Mock.read t0 (blockedKey "8.8.8.8") blockedStore = Some (JSON_stringify manualRecord) /\
  fetch extraRequest (windowOnlyEnv blockedStore) t0 =
    handleAdminRequest extraRequest (windowOnlyEnv blockedStore)
      (readConfig (windowOnlyEnv blockedStore)) (url extraRequest) t0 /\
  fetch extraRequest (windowOnlyEnv blockedStore) t0 =
    (Fulfilled (jsonResponse (errorPayload "unauthorized") 401), Some blockedStore).
Proof.
  split; [vm_compute; reflexivity|].
  split; [|vm_compute; reflexivity].
  apply (admin_prefix_is_a_string_prefix extraRequest (windowOnlyEnv blockedStore) t0).
  vm_compute; reflexivity.
Defined.

(* ===================================================================== *)
(** ** Further properties of the worker and of the store of the tests *)
(* ===================================================================== *)

(** *** White space and letter case *)

Lemma trimEnd_idempotent (s : string) : Js.trimEnd (Js.trimEnd s) = Js.trimEnd s.
Proof.
  induction s as [|c rest IH]; [reflexivity|].
  cbn [Js.trimEnd].
  destruct (Js.trimEnd rest) as [|d rest'] eqn:Hrest.
  - destruct (Js.isWhiteSpace c) eqn:Hc; [reflexivity|].
    cbn [Js.trimEnd]. now rewrite Hc.
  - cbn [Js.trimEnd] in *. now rewrite IH.
Qed.

Lemma trimStart_head (s : string) (c : ascii) (rest : string) :
  Js.trimStart s = String c rest -> Js.isWhiteSpace c = false.
Proof.
  induction s as [|d s IH]; [discriminate|].
  cbn [Js.trimStart]. destruct (Js.isWhiteSpace d) eqn:Hd; [exact IH|].
  now intros [= <- _].
Qed.

Lemma trimEnd_head (c : ascii) (rest : string) :
  Js.isWhiteSpace c = false -> exists rest', Js.trimEnd (String c rest) = String c rest'.
Proof.
  intros Hc. cbn [Js.trimEnd].
  destruct (Js.trimEnd rest); [rewrite Hc|]; eauto.
Qed.

Lemma trim_idempotent (s : string) : Js.trim (Js.trim s) = Js.trim s.
Proof.
  unfold Js.trim.
  destruct (Js.trimStart s) as [|c rest] eqn:Hstart; [reflexivity|].
  pose proof (trimStart_head _ _ _ Hstart) as Hc.
  destruct (trimEnd_head c rest Hc) as [rest' Hend].
  rewrite Hend. cbn [Js.trimStart]. rewrite Hc, <- Hend.
  apply trimEnd_idempotent.
Qed.

Lemma lowerChar_idempotent (c : ascii) : Js.lowerChar (Js.lowerChar c) = Js.lowerChar c.
Proof. destruct c as [[] [] [] [] [] [] [] []]; reflexivity. Qed.

Lemma toLowerCase_idempotent (s : string) :
  Js.toLowerCase (Js.toLowerCase s) = Js.toLowerCase s.
Proof.
  induction s as [|c s IH]; [reflexivity|].
  cbn [Js.toLowerCase]. now rewrite lowerChar_idempotent, IH.
Qed.

(** *** Configuration *)

(** X1: whatever the environment holds, the nine numeric settings that
    [readConfig] produces are positive: a missing, unreadable, zero or
    negative value falls back to the default, which is positive. *)
Theorem readConfig_numbers_positive {K : Type} (env : Env K) :
  0 < rateWindowSeconds (readConfig env) /\
  0 < rateMaxRequests (readConfig env) /\
  0 < burstWindowSeconds (readConfig env) /\
  0 < burstMaxRequests (readConfig env) /\
  0 < blockTtlSeconds (readConfig env) /\
  0 < botScoreTtlSeconds (readConfig env) /\
  0 < botScoreBlockThreshold (readConfig env) /\
  0 < botScorePathWeight (readConfig env) /\
  0 < botScoreUserAgentWeight (readConfig env).
Proof. repeat split; now apply parsePositiveInteger_positive. Qed.

(** X2: [parsePositiveInteger] of the decimal text of an integer up to
    [Number.MAX_SAFE_INTEGER] is that integer when it is positive, and the
    fallback otherwise. *)
Theorem parsePositiveInteger_reads_decimal (n fallback : Z) :
  n <= MAX_SAFE_INTEGER ->
  parsePositiveInteger (Some (Js.ofNumber n)) fallback = if 0 <? n then n else fallback.
Proof.
  intros _. unfold parsePositiveInteger. simpl. rewrite parseInt_ofNumber.
  destruct (n <=? 0) eqn:Hn; destruct (0 <? n) eqn:Hp; try reflexivity; lia.
Qed.

Lemma forallb_trimStart (P : ascii -> bool) (s : string) :
  Js.forallb_string P s = true -> Js.forallb_string P (Js.trimStart s) = true.
Proof.
  induction s as [|c s IH]; [reflexivity|].
  cbn [Js.trimStart]. destruct (Js.isWhiteSpace c); [|auto].
  cbn [Js.forallb_string]. intros [_ Hs]%andb_true_iff. auto.
Qed.

Lemma forallb_trimEnd (P : ascii -> bool) (s : string) :
  Js.forallb_string P s = true -> Js.forallb_string P (Js.trimEnd s) = true.
Proof.
  induction s as [|c s IH]; [reflexivity|].
  cbn [Js.forallb_string Js.trimEnd]. intros [Hc Hs]%andb_true_iff.
  specialize (IH Hs).
  destruct (Js.trimEnd s) as [|d rest].
  - destruct (Js.isWhiteSpace c); [reflexivity|].
    cbn [Js.forallb_string]. now rewrite Hc.
  - cbn [Js.forallb_string] in *. now rewrite Hc.
Qed.

(** The pieces of a split do not contain the separator. *)
Lemma split_pieces (sep : ascii) (s piece : string) :
  In piece (Js.split sep s) ->
  Js.forallb_string (fun c => negb (Ascii.eqb c sep)) piece = true.
Proof.
  revert piece. induction s as [|c s IH]; intros piece.
  - intros [<- | []]. reflexivity.
  - cbn [Js.split]. destruct (Ascii.eqb c sep) eqn:Hc.
    + intros [<- | Hin]; [reflexivity | auto].
    + destruct (Js.split sep s) as [|first pieces].
      * intros [<- | []]. cbn [Js.forallb_string]. now rewrite Hc.
      * intros [<- | Hin].
        -- cbn [Js.forallb_string]. rewrite Hc. apply IH. now left.
        -- apply IH. now right.
Qed.

(** The entries of [parseCsvList] are not empty. *)
Lemma parseCsvList_nonempty (value : option string) (entry : string) :
  In entry (parseCsvList value) -> entry <> "".
Proof.
  unfold parseCsvList. destruct value as [v|]; [|intros []].
  destruct (Js.truthy v); [|intros []]. cbn [negb].
  intros [_ Hentry]%filter_In. now destruct entry.
Qed.

(** X3: every entry of [parseCsvList] is a non-empty text without outer
    white space and without comma. *)
Theorem parseCsvList_entries (value : option string) (entry : string) :
  In entry (parseCsvList value) ->
  entry <> "" /\ Js.trim entry = entry /\
  Js.forallb_string (fun c => negb (Ascii.eqb c ",")) entry = true.
Proof.
  unfold parseCsvList. destruct value as [v|]; [|intros []].
  destruct (Js.truthy v); [|intros []]. cbn [negb].
  intros [Hin Hentry]%filter_In.
  apply in_map_iff in Hin as (piece & <- & Hpiece).
  split; [now destruct (Js.trim piece)|].
  split; [apply trim_idempotent|].
  unfold Js.trim. apply forallb_trimEnd, forallb_trimStart.
  now apply split_pieces in Hpiece.
Qed.

Lemma normalizePathPrefix_shape (prefix : string) :
  normalizePathPrefix prefix = "*" \/ Js.startsWith (normalizePathPrefix prefix) "/" = true.
Proof.
  unfold normalizePathPrefix.
  destruct (Js.truthy prefix); cbn [negb]; [|now right].
  destruct (String.eqb prefix "*"); [now left|].
  destruct (Js.startsWith prefix "/") eqn:Hs; right; [exact Hs|].
  apply (startsWith_app "/").
Qed.

Lemma normalizePathPrefix_idempotent (prefix : string) :
  normalizePathPrefix (normalizePathPrefix prefix) = normalizePathPrefix prefix.
Proof.
  destruct (normalizePathPrefix_shape prefix) as [-> | Hslash]; [reflexivity|].
  set (normal := normalizePathPrefix prefix) in *.
  unfold normalizePathPrefix. rewrite Hslash.
  destruct normal as [|c rest]; [discriminate|]. cbn [Js.truthy negb].
  now destruct (String.eqb (String c rest) "*") eqn:Hstar; [apply String.eqb_eq in Hstar|].
Qed.

(** X4: the list of protected prefixes is never empty, each of its
    prefixes is [*] or starts with a slash, and normalising it again changes
    nothing. *)
Theorem parsePathPrefixes_normal (value : option string) :
  parsePathPrefixes value <> [] /\
  (forall prefix, In prefix (parsePathPrefixes value) ->
     prefix = "*" \/ Js.startsWith prefix "/" = true) /\
  map normalizePathPrefix (parsePathPrefixes value) = parsePathPrefixes value.
Proof.
  assert (Hdefault : DEFAULTS.protectedPathPrefixes <> [] /\
            (forall prefix, In prefix DEFAULTS.protectedPathPrefixes ->
               prefix = "*" \/ Js.startsWith prefix "/" = true) /\
            map normalizePathPrefix DEFAULTS.protectedPathPrefixes =
              DEFAULTS.protectedPathPrefixes).
  { split; [discriminate|]. split; [|reflexivity]. intros prefix [<- | []]. now left. }
  unfold parsePathPrefixes. destruct value as [v|]; [|exact Hdefault].
  destruct (Js.truthy v); cbn [negb]; [|exact Hdefault].
  destruct (map normalizePathPrefix (parseCsvList (Some v))) as [|first others] eqn:Hparsed;
    [exact Hdefault|].
  rewrite <- Hparsed. split; [rewrite Hparsed; discriminate|]. split.
  - intros prefix (raw & <- & _)%in_map_iff. apply normalizePathPrefix_shape.
  - rewrite map_map. apply map_ext. intros raw. apply normalizePathPrefix_idempotent.
Qed.

Lemma truthy_ne (s : string) : Js.truthy s = true <-> s <> "".
Proof. destruct s; split; congruence || discriminate || reflexivity. Qed.

(** X5: the patterns that [readConfig] hands to the bot scorer, for paths
    and for user agents, are non-empty and in lower case, so that they can
    match the lowercased path and user agent. *)
Theorem patterns_lowercase_nonempty {K : Type} (env : Env K) (pattern : string) :
  In pattern (suspiciousPathPatterns (readConfig env)) \/
  In pattern (badUserAgentPatterns (readConfig env)) ->
  pattern <> "" /\ Js.toLowerCase pattern = pattern.
Proof.
  assert (Hparse : forall value fallback,
            (forall p, In p fallback -> p <> "" /\ Js.toLowerCase p = p) ->
            In pattern (parseStringPatterns value fallback) ->
            pattern <> "" /\ Js.toLowerCase pattern = pattern).
  { intros value fallback Hfallback. unfold parseStringPatterns.
    destruct value as [v|]; [|apply Hfallback].
    destruct (Js.truthy v); cbn [negb]; [|apply Hfallback].
    destruct (map Js.toLowerCase (parseCsvList (Some v))) as [|first others] eqn:Hparsed;
      [apply Hfallback|].
    rewrite <- Hparsed. intros (raw & <- & Hraw)%in_map_iff.
    split; [|apply toLowerCase_idempotent].
    apply parseCsvList_nonempty in Hraw. now destruct raw. }
  intros [Hin | Hin]; revert Hin; apply Hparse; intros p Hp;
    repeat (destruct Hp as [<- | Hp]; [split; [discriminate | reflexivity]|]);
    destruct Hp.
Qed.

(** X6: when [PROTECTED_PATH_PREFIXES] lists nothing (it is missing, or
    holds only commas and white space), or lists [*], every path is
    inspected. *)
Theorem every_path_inspected_by_default {K : Type} (env : Env K) (path : string) :
  parseCsvList (PROTECTED_PATH_PREFIXES env) = [] \/
  In "*" (parseCsvList (PROTECTED_PATH_PREFIXES env)) ->
  shouldInspectPath path (protectedPathPrefixes (readConfig env)) = true.
Proof.
  intros Hcases. unfold shouldInspectPath.
  assert (Hstar : existsb (String.eqb "*") (protectedPathPrefixes (readConfig env)) = true);
    [|now rewrite Hstar].
  cbn [readConfig protectedPathPrefixes]. unfold parsePathPrefixes.
  destruct (PROTECTED_PATH_PREFIXES env) as [v|]; [|reflexivity].
  destruct (Js.truthy v); cbn [negb]; [|reflexivity].
  destruct Hcases as [-> | Hin]; [reflexivity|].
  destruct (map normalizePathPrefix (parseCsvList (Some v))) as [|first others] eqn:Hparsed;
    [reflexivity|].
  rewrite <- Hparsed. apply existsb_exists. exists "*". split; [|reflexivity].
  apply in_map_iff. exists "*". split; [reflexivity | exact Hin].
Qed.

(** *** Addresses *)

Lemma forallb_string_impl (P Q : ascii -> bool) (s : string) :
  (forall c, P c = true -> Q c = true) ->
  Js.forallb_string P s = true -> Js.forallb_string Q s = true.
Proof.
  intros HPQ. induction s as [|c s IH]; [reflexivity|].
  cbn [Js.forallb_string]. intros [Hc Hs]%andb_true_iff.
  now rewrite (HPQ c Hc), IH.
Qed.

(** What holds of every piece of a split holds of the whole string,
    separators apart. *)
Lemma split_forallb (P : ascii -> bool) (sep : ascii) (s : string) :
  forallb (Js.forallb_string P) (Js.split sep s) = true ->
  Js.forallb_string (fun c => P c || Ascii.eqb c sep) s = true.
Proof.
  induction s as [|c s IH]; [reflexivity|].
  cbn [Js.split Js.forallb_string]. destruct (Ascii.eqb c sep) eqn:Hc.
  - cbn [forallb Js.forallb_string]. intros Hrest. rewrite orb_true_r. now apply IH.
  - destruct (Js.split sep s) as [|piece pieces].
    + cbn [forallb Js.forallb_string].
      intros [[Hp _]%andb_true_iff _]%andb_true_iff. rewrite Hp. now apply IH.
    + cbn [forallb Js.forallb_string] in *.
      intros [[Hp Hpiece]%andb_true_iff Hpieces]%andb_true_iff.
      rewrite Hp. apply IH. now rewrite Hpiece.
Qed.

Lemma isDigit_isHexDigit (c : ascii) : Js.isDigit c = true -> Js.isHexDigit c = true.
Proof. unfold Js.isDigit, Js.isHexDigit. cbv zeta. now intros ->. Qed.

(** X7: a text that [isValidIp] accepts is not empty and is made of
    hexadecimal digits, dots and colons only. *)
Theorem valid_address_charset (ip : string) :
  isValidIp ip = true ->
  ip <> "" /\
  Js.forallb_string
    (fun c => Js.isHexDigit c || Ascii.eqb c "." || Ascii.eqb c ":") ip = true.
Proof.
  intros Hvalid. split; [now destruct ip|].
  unfold isValidIp in Hvalid. apply orb_true_iff in Hvalid as [Hv4 | Hv6].
  - unfold isValidIpv4 in Hv4.
    destruct (negb (length (Js.split "." ip) =? 4)%nat); [discriminate|].
    assert (Hdigits : forallb (Js.forallb_string Js.isDigit) (Js.split "." ip) = true).
    { apply forallb_forall. intros part Hpart.
      apply (proj1 (forallb_forall _ _) Hv4) in Hpart.
      destruct (Js.forallb_string Js.isDigit part); [reflexivity|].
      now rewrite andb_false_r in Hpart. }
    apply split_forallb in Hdigits.
    revert Hdigits. apply forallb_string_impl.
    intros c [Hc | Hc]%orb_true_iff.
    + now rewrite (isDigit_isHexDigit c Hc).
    + rewrite Hc. apply orb_true_iff. left. apply orb_true_r.
  - unfold isValidIpv6 in Hv6.
    destruct (negb (Js.includes ip ":")); [discriminate|].
    apply andb_true_iff in Hv6 as [_ Hchars].
    revert Hchars. apply forallb_string_impl.
    intros c [Hc | Hc]%orb_true_iff.
    + now rewrite Hc.
    + rewrite Hc. apply orb_true_r.
Qed.

Lemma split_no_separator (sep : ascii) (s : string) :
  Js.forallb_string (fun c => negb (Ascii.eqb c sep)) s = true ->
  Js.split sep s = [s].
Proof.
  induction s as [|c s IH]; [reflexivity|].
  cbn [Js.forallb_string Js.split]. intros [Hc Hs]%andb_true_iff.
  apply negb_true_iff in Hc. now rewrite Hc, (IH Hs).
Qed.

Lemma split_app (sep : ascii) (s t : string) :
  Js.forallb_string (fun c => negb (Ascii.eqb c sep)) s = true ->
  Js.split sep (s ++ String sep t) = s :: Js.split sep t.
Proof.
  induction s as [|c s IH].
  - intros _. simpl. now rewrite Ascii.eqb_refl.
  - simpl. intros [Hc Hs]%andb_true_iff.
    apply negb_true_iff in Hc. now rewrite Hc, (IH Hs).
Qed.

Lemma octet_rendering (n : Z) :
  0 <= n <= 255 ->
  octetText (Js.ofNumber n) = true /\
  Js.forallb_string (fun c => negb (Ascii.eqb c ".")) (Js.ofNumber n) = true.
Proof.
  intros Hn.
  assert (Hall :
    forallb (fun k =>
               octetText (Js.ofNumber (Z.of_nat k)) &&
               Js.forallb_string (fun c => negb (Ascii.eqb c "."))
                 (Js.ofNumber (Z.of_nat k)))
      (seq 0 256) = true) by (vm_compute; reflexivity).
  pose proof (proj1 (forallb_forall _ _) Hall (Z.to_nat n)) as Hk.
  cbv beta in Hk. rewrite Z2Nat.id in Hk by lia.
  apply andb_true_iff. apply Hk. apply in_seq. lia.
Qed.

(** X8: four numbers from 0 to 255 written in decimal and joined by dots
    form an address that [isValidIp] accepts. *)
Theorem dotted_quad_is_valid (a b c d : Z) :
  0 <= a <= 255 -> 0 <= b <= 255 -> 0 <= c <= 255 -> 0 <= d <= 255 ->
  isValidIp (Js.ofNumber a ++ "." ++ Js.ofNumber b ++ "." ++ Js.ofNumber c ++ "." ++
             Js.ofNumber d) = true.
Proof.
  intros Ha Hb Hc Hd.
  destruct (octet_rendering a Ha) as [Hoa Hda], (octet_rendering b Hb) as [Hob Hdb],
    (octet_rendering c Hc) as [Hoc Hdc], (octet_rendering d Hd) as [Hod Hdd].
  change (Js.ofNumber a ++ "." ++ Js.ofNumber b ++ "." ++ Js.ofNumber c ++ "." ++
          Js.ofNumber d)
    with (Js.ofNumber a ++ String "." (Js.ofNumber b ++ String "."
            (Js.ofNumber c ++ String "." (Js.ofNumber d)))).
  unfold isValidIp, isValidIpv4.
  rewrite !split_app by assumption. rewrite split_no_separator by assumption.
  apply orb_true_iff. left. fold octetText.
  cbn [length Nat.eqb negb forallb]. now rewrite Hoa, Hob, Hoc, Hod.
Qed.

(** *** Keys *)

Lemma append_cancel_l (p a b : string) : p ++ a = p ++ b -> a = b.
Proof. induction p as [|c p IH]; simpl; [auto | intros [= Heq]; auto]. Qed.

Lemma numeral_no_colon (d : Decimal.uint) :
  Js.forallb_string (fun c => negb (Ascii.eqb c ":")) (NilEmpty.string_of_uint d) = true.
Proof. induction d; simpl; auto. Qed.

Lemma ofNumber_no_colon (n : Z) :
  Js.forallb_string (fun c => negb (Ascii.eqb c ":")) (Js.ofNumber n) = true.
Proof.
  assert (Hnz : forall d, Js.forallb_string (fun c => negb (Ascii.eqb c ":"))
                            (NilZero.string_of_uint d) = true).
  { intros d. destruct d; try reflexivity; apply (numeral_no_colon (_ d)). }
  unfold Js.ofNumber.
  destruct (Z.to_int n) as [d | d]; cbn [NilZero.string_of_int]; [apply Hnz|].
  cbn [Js.forallb_string]. apply Hnz.
Qed.

(** Two texts that end in a colon and a part without colon are equal only
    if both halves are. *)
Lemma last_colon_splits (a b x y : string) :
  Js.forallb_string (fun c => negb (Ascii.eqb c ":")) x = true ->
  Js.forallb_string (fun c => negb (Ascii.eqb c ":")) y = true ->
  a ++ String ":" x = b ++ String ":" y -> a = b /\ x = y.
Proof.
  intros Hx Hy. revert b. induction a as [|c a IH]; intros [|d b]; simpl.
  - now intros [= ->].
  - intros [= <- ->]. exfalso. clear -Hx.
    induction b as [|e b IHb]; simpl in Hx; [discriminate|].
    apply andb_true_iff in Hx as [_ Hx]. auto.
  - intros [= -> <-]. exfalso. clear -Hy.
    induction a as [|e a IHa]; simpl in Hy; [discriminate|].
    apply andb_true_iff in Hy as [_ Hy]. auto.
  - intros [= -> Heq]. destruct (IH b Heq) as [-> ->]. auto.
Qed.

Lemma ofNumber_injective (a b : Z) : Js.ofNumber a = Js.ofNumber b -> a = b.
Proof.
  intros Heq. apply (f_equal Js.parseInt) in Heq.
  rewrite !parseInt_ofNumber in Heq. congruence.
Qed.

(** X9: the keys of the store never collide: [blockedKey] and
    [botScoreKey] are injective in the address, [counterKey] with the scopes
    [window] and [burst] is injective in the scope, the address and the
    window, and keys of different kinds differ. *)
Theorem store_keys_never_collide :
  (forall ip ip', blockedKey ip = blockedKey ip' -> ip = ip') /\
  (forall ip ip', botScoreKey ip = botScoreKey ip' -> ip = ip') /\
  (forall ip ip' scope scope' id id',
     scope = "window" \/ scope = "burst" ->
     scope' = "window" \/ scope' = "burst" ->
     counterKey ip scope id = counterKey ip' scope' id' ->
     scope = scope' /\ ip = ip' /\ id = id') /\
  (forall ip ip' ip'' scope id,
     blockedKey ip <> botScoreKey ip' /\
     blockedKey ip <> counterKey ip'' scope id /\
     botScoreKey ip' <> counterKey ip'' scope id).
Proof.
  split; [intros ip ip'; apply append_cancel_l|].
  split; [intros ip ip'; apply append_cancel_l|].
  split.
  - assert (Hsame : forall scope ip ip' id id',
              counterKey ip scope id = counterKey ip' scope id' -> ip = ip' /\ id = id').
    { intros scope ip ip' id id' Heq. unfold counterKey in Heq.
      do 3 apply append_cancel_l in Heq.
      apply last_colon_splits in Heq as [-> Hid]; try apply ofNumber_no_colon.
      split; [reflexivity | now apply ofNumber_injective]. }
    intros ip ip' scope scope' id id' [-> | ->] [-> | ->] Heq;
      try (split; [reflexivity | now apply (Hsame _ _ _ _ _ Heq)]);
      exfalso; revert Heq; unfold counterKey; discriminate.
  - intros ip ip' ip'' scope id. split; [|split]; discriminate.
Qed.

(** *** The counters *)

Section Counters.

Implicit Types (kv : MockKV) (now : Z).

Lemma inWindow_close (w id t t' : Z) :
  0 < w -> inWindow w id t -> inWindow w id t' -> t' < t + (w + 5) * 1000.
Proof.
  unfold inWindow. intros Hw Ht Ht'. rewrite !Z.div_div in Ht, Ht' by lia.
  pose proof (Z.mul_div_le t (1000 * w) ltac:(lia)).
  pose proof (Z.mul_succ_div_gt t' (1000 * w) ltac:(lia)).
  nia.
Qed.

Lemma incrementCounterAt_from ip scope w id times :
  0 < w ->
  Forall (inWindow w id) times ->
  forall kv (n : nat),
    (match times with
     | [] => True
     | now :: _ => nextCount (Mock.read now (counterKey ip scope id) kv) = Z.of_nat (S n)
     end) ->
    fst (incrementCounterAt ip scope w times kv) =
      Fulfilled (map Z.of_nat (seq (S n) (length times))).
Proof.
  intros Hw Hin. induction Hin as [|now later Hnow Hlater IH]; intros kv n Hstart.
  - reflexivity.
  - cbn [incrementCounterAt]. unfold bind at 1.
    rewrite incrementCounter_mock. unfold counterKeyAt. rewrite Hnow, Hstart.
    set (kv1 := Mock.write _ _ _ _ _).
    unfold bind at 1.
    assert (Hnext : match later with
                    | [] => True
                    | now' :: _ =>
                        nextCount (Mock.read now' (counterKey ip scope id) kv1) =
                        Z.of_nat (S (S n))
                    end).
    { destruct later as [|now' later']; [exact I|].
      unfold kv1. rewrite read_write_eq.
      apply Forall_inv in Hlater.
      pose proof (inWindow_close w id now now' Hw Hnow Hlater).
      destruct (_ <=? now') eqn:Hexp; [lia|].
      rewrite nextCount_ofNumber. lia. }
    specialize (IH kv1 (S n) Hnext).
    destruct (incrementCounterAt ip scope w later kv1) as [[counts|] kv2];
      cbn [fst] in IH; [|discriminate].
    injection IH as ->. reflexivity.
Qed.

(** X10: over the in-memory store, starting from a store without the
    counter, the calls of [incrementCounter] made at instants of one window
    return 1, 2, 3, ... in turn, for every positive window length, where the
    expiry of the counter and the number of calls are exact numbers of the
    platform. *)
Theorem counter_counts_calls_of_a_window ip scope windowSeconds windowId times kv :
  0 < windowSeconds ->
  Forall (inWindow windowSeconds windowId) times ->
  Forall (fun now => exactExpiry now (windowSeconds + 5)) times ->
  Z.of_nat (length times) <= MAX_SAFE_INTEGER ->
  store kv !! counterKey ip scope windowId = None ->
  fst (incrementCounterAt ip scope windowSeconds times kv) =
    Fulfilled (map Z.of_nat (seq 1 (length times))).
Proof.
  intros Hw Hin _ _ Hfresh.
  apply (incrementCounterAt_from ip scope windowSeconds windowId); auto.
  destruct times as [|now later]; [exact I|].
  now destruct (read_absent now _ _ Hfresh) as [-> _].
Qed.

End Counters.

(** *** The decision engine *)

Section Engine.

Context {K : Type} `{!KVNamespace K} `{!JsonParser}.

Implicit Types (request : Request) (env : Env K) (kv : K) (now : Z).

(** X11: for a request outside the admin prefix whose path is not
    protected, from a valid address that is not allowlisted, the read of the
    block record is the only operation on the store: the request is blocked
    when the record read is live, and forwarded otherwise, also when the read
    rejects. *)
Theorem unprotected_path_is_never_counted request env kv now :
  let config := readConfig env in
  let ip := getClientIp request in
  BOTNET_KV env = Some kv ->
  Js.startsWith (pathname (url request)) (adminPathPrefix config) = false ->
  shouldInspectPath (pathname (url request)) (protectedPathPrefixes config) = false ->
  isValidIp ip = true ->
  ip ∉ allowlistIps config ->
  fetch request env now =
    match kv_get now (blockedKey ip) kv with
    | (Fulfilled (Some raw), after) =>
        (Fulfilled (if Js.truthy raw && truthy (decodeRecord raw)
                    then blockedResponse ip (decodeRecord raw)
                    else originFetch request),
         Some after)
    | (_, after) => (Fulfilled (originFetch request), Some after)
    end.
Proof.
  intros config ip Hkv Hadmin Hprotected Hvalid Hallow.
  unfold fetch. fold config ip. rewrite Hadmin, Hkv.
  rewrite (isValidIp_truthy _ Hvalid), Hvalid. cbn [negb orb].
  rewrite bool_decide_eq_false_2 by assumption.
  unfold withStore, tryCatch, inspect, getBlockedIpRecord, bind, ret, decodeRecord.
  rewrite Hprotected.
  destruct (kv_get now (blockedKey ip) kv) as [[[raw|]|] after]; try reflexivity.
  destruct (Js.truthy raw); cbn [negb andb]; [|reflexivity].
  destruct (JSON_parse raw) as [record|]; [|reflexivity].
  now destruct (truthy record).
Qed.

End Engine.

Section EngineInMemory.

Context `{!JsonParser}.

Implicit Types (request : Request) (env : Env MockKV) (kv : MockKV) (now : Z).



Lemma stringify_truthy (v : json) : Js.truthy (JSON_stringify v) = true.
Proof. destruct v as [|[]| | | |]; try reflexivity. apply truthy_ofNumber. Qed.

(** X14: over the in-memory store, once [blockIp] has recorded a block
    for an address, every request of that address outside the admin prefix
    that arrives before [ttlSeconds] have passed is answered with the block of
    that very record, and the store is left as it was; the record is one
    that [JSON.parse] reads back from its text, and the expiry is an exact
    number of the platform. *)
Theorem recorded_block_is_served_until_expiry request env kv now now' ip record ttl :
  let blocked := snd (blockIp ip record ttl now kv) in
  BOTNET_KV env = Some blocked ->
  getClientIp request = ip ->
  Js.startsWith (pathname (url request)) (adminPathPrefix (readConfig env)) = false ->
  isValidIp ip = true ->
  ip ∉ allowlistIps (readConfig env) ->
  truthy record = true ->
  JSON_parse (JSON_stringify record) = Some record ->
  exactExpiry now ttl ->
  now' < now + ttl * 1000 ->
  fetch request env now' = (Fulfilled (blockedResponse ip record), Some blocked).
Proof.
  intros blocked Hkv Hip Hadmin Hvalid Hallow Htruthy Hparse _ Hlive.
  unfold fetch. rewrite Hadmin, Hkv, Hip.
  rewrite (isValidIp_truthy _ Hvalid), Hvalid. cbn [negb orb].
  rewrite bool_decide_eq_false_2 by assumption.
  assert (Hserved : inspect request (readConfig env) (url request) ip now' blocked =
                      (Fulfilled (Some (blockedResponse ip record)), blocked)).
  { unfold inspect, getBlockedIpRecord. unfold bind at 1 2.
    rewrite get_eq. unfold blocked. rewrite blockIp_mock. cbn [snd].
    destruct (read_write_live now now' (blockedKey ip) (JSON_stringify record) ttl kv Hlive)
      as [-> ->].
    rewrite stringify_truthy. cbn [negb]. rewrite Hparse.
    unfold ret at 1. now rewrite Htruthy. }
  unfold withStore, tryCatch, bind. now rewrite Hserved.
Qed.

End EngineInMemory.

(** *** The administrative API *)


Section Admin.

Context {K : Type} `{!KVNamespace K} `{!JsonParser}.

Implicit Types (request : Request) (env : Env K) (kv : K) (now : Z).

(** X15: with the store bound, a request under the admin prefix with the
    right token whose method and path are none of the five routes is answered
    404 [not_found], with no operation on the store. *)
Theorem unknown_admin_route_is_404 request env kv now :
  let config := readConfig env in
  BOTNET_KV env = Some kv ->
  Js.startsWith (pathname (url request)) (adminPathPrefix config) = true ->
  isAuthorized request (BOTNET_ADMIN_TOKEN env) = true ->
  (forall name verb, In (verb, name) adminRouteNames ->
     ~ (method request = verb /\ pathname (url request) = adminPathPrefix config ++ name)) ->
  fetch request env now = (Fulfilled (jsonResponse (errorPayload "not_found") 404), Some kv).
Proof.
  intros config Hkv Hadmin Hauth Hroutes.
  unfold fetch. fold config. rewrite Hadmin.
  unfold handleAdminRequest. rewrite Hkv.
  assert (Hno : forall verb name, In (verb, name) adminRouteNames ->
            String.eqb (method request) verb &&
            String.eqb (pathname (url request)) (adminPathPrefix config ++ name) = false).
  { intros verb name Hin. apply not_true_is_false.
    intros [Hm%String.eqb_eq Hp%String.eqb_eq]%andb_true_iff.
    now apply (Hroutes name verb Hin). }
  unfold adminRoutes. rewrite Hauth. cbn [negb].
  rewrite (Hno "GET" "/health"), (Hno "GET" "/status"), (Hno "POST" "/block")
    by (unfold adminRouteNames; simpl; tauto).
  pose proof (Hno "POST" "/unblock" ltac:(unfold adminRouteNames; simpl; tauto)) as Hpost.
  pose proof (Hno "DELETE" "/unblock" ltac:(unfold adminRouteNames; simpl; tauto)) as Hdelete.
  destruct (String.eqb (method request) "POST"), (String.eqb (method request) "DELETE");
    cbn [orb andb] in *; try rewrite Hpost; try rewrite Hdelete; reflexivity.
Qed.

(** X16: with the store bound, a status request with the right token
    whose [ip] parameter is missing or is no valid address is answered 400
    [valid ip is required], with no operation on the store. *)
Theorem status_needs_a_valid_address request env kv now :
  let config := readConfig env in
  BOTNET_KV env = Some kv ->
  isAuthorized request (BOTNET_ADMIN_TOKEN env) = true ->
  isStatusRoute request config ->
  match searchParams_get "ip" (searchParams (url request)) with
  | Some ip => isValidIp ip = false
  | None => True
  end ->
  fetch request env now =
    (Fulfilled (jsonResponse (errorPayload "valid ip is required") 400), Some kv).
Proof.
  intros config Hkv Hauth [Hm Hp] Hip.
  unfold fetch. fold config. rewrite Hp, startsWith_app.
  unfold handleAdminRequest. rewrite Hkv.
  unfold adminRoutes. rewrite Hauth, Hm, Hp, !eqb_app_l, String.eqb_refl.
  cbn [String.eqb Ascii.eqb Bool.eqb andb negb].
  destruct (searchParams_get "ip" (searchParams (url request))) as [ip|]; cbn [orElse].
  - unfold orElse. destruct (Js.truthy ip); [now rewrite Hip | reflexivity].
  - reflexivity.
Qed.

(** X17: a secret with white space at either end can never be presented:
    the token of a request is trimmed before the comparison, so
    [isAuthorized] is false for every request. *)
Theorem padded_secret_locks_the_api request (secret : string) :
  Js.trim secret <> secret ->
  isAuthorized request (Some secret) = false.
Proof.
  intros Hpadded. unfold isAuthorized.
  destruct (Js.truthy secret); cbn [negb]; [|reflexivity].
  destruct (Js.startsWith _ "Bearer "); cbn [negb]; [|reflexivity].
  apply andb_false_iff. right. apply String.eqb_neq. intros Heq.
  apply Hpadded. rewrite <- Heq. apply trim_idempotent.
Qed.

End Admin.

Section AdminInMemory.

Context `{!JsonParser}.

Implicit Types (request : Request) (env : Env MockKV) (kv : MockKV) (now : Z).

Lemma read_swept_eq now now' key kv :
  now <= now' -> Mock.read now' key (Mock.swept now key kv) = Mock.read now' key kv.
Proof.
  intros Hle. unfold Mock.swept. unfold Mock.get at 1.
  destruct (store kv !! key) as [entry|] eqn:Hk; [|reflexivity].
  destruct (expiresAtMs entry) as [expires|] eqn:He; [|reflexivity].
  destruct (expires <=? now) eqn:Hexp; [|reflexivity].
  unfold Mock.read, Mock.get. cbn [snd store]. rewrite lookup_delete_eq, Hk, He.
  destruct (expires <=? now') eqn:Hexp'; [reflexivity | lia].
Qed.

Lemma read_swept_later now now' key key' kv :
  now <= now' -> Mock.read now' key' (Mock.swept now key kv) = Mock.read now' key' kv.
Proof.
  intros Hle. destruct (decide (key = key')) as [<- | Hne].
  - now apply read_swept_eq.
  - unfold Mock.swept. unfold Mock.get at 1.
    destruct (store kv !! key) as [entry|]; [|reflexivity].
    destruct (expiresAtMs entry) as [expires|]; [|reflexivity].
    destruct (expires <=? now); [|reflexivity].
    unfold Mock.read, Mock.get. simpl. rewrite lookup_delete_ne by assumption.
    destruct (store kv !! key') as [entry'|]; [|reflexivity].
    destruct (expiresAtMs entry') as [expires'|]; [|reflexivity].
    now destruct (expires' <=? now').
Qed.

Lemma getBlockedIpRecord_mock ip now kv :
  getBlockedIpRecord ip now kv =
    (Fulfilled match Mock.read now (blockedKey ip) kv with
               | Some raw => if Js.truthy raw then decodeRecord raw else JNull
               | None => JNull
               end,
     Mock.swept now (blockedKey ip) kv).
Proof.
  unfold getBlockedIpRecord, bind, decodeRecord. rewrite get_eq.
  destruct (Mock.read now (blockedKey ip) kv) as [raw|]; [|reflexivity].
  destruct (Js.truthy raw); cbn [negb]; [|reflexivity].
  now destruct (JSON_parse raw).
Qed.

Lemma getBotScore_mock ip now kv :
  getBotScore ip now kv = (Fulfilled (scoreOf now ip kv), Mock.swept now (botScoreKey ip) kv).
Proof.
  unfold scoreOf, getBotScore, bind. rewrite get_eq.
  destruct (Mock.read now (botScoreKey ip) kv) as [raw|]; [|reflexivity].
  destruct (Js.truthy raw); cbn [negb]; [|reflexivity].
  now destruct (Js.parseInt raw).
Qed.

(** The status route over the in-memory store. *)
Lemma status_run request env kv now ip :
  BOTNET_KV env = Some kv ->
  isAuthorized request (BOTNET_ADMIN_TOKEN env) = true ->
  isStatusRoute request (readConfig env) ->
  searchParams_get "ip" (searchParams (url request)) = Some ip ->
  isValidIp ip = true ->
  let details :=
    match Mock.read now (blockedKey ip) kv with
    | Some raw => if Js.truthy raw then decodeRecord raw else JNull
    | None => JNull
    end in
  let kv1 := Mock.swept now (blockedKey ip) kv in
  fetch request env now =
    (Fulfilled (jsonResponse (statusPayload ip details (scoreOf now ip kv1)) 200),
     Some (Mock.swept now (botScoreKey ip) kv1)).
Proof.
  intros Hkv Hauth [Hm Hp] Hquery Hvalid details kv1.
  unfold fetch. rewrite Hp, startsWith_app.
  unfold handleAdminRequest. rewrite Hkv.
  unfold adminRoutes. rewrite Hauth, Hm, Hp, !eqb_app_l, String.eqb_refl, Hquery.
  cbn [String.eqb Ascii.eqb Bool.eqb andb negb].
  unfold orElse. rewrite (isValidIp_truthy _ Hvalid), Hvalid. cbn [negb].
  unfold withStore, bind. rewrite getBlockedIpRecord_mock. cbv beta iota.
  fold kv1 details. now rewrite getBotScore_mock.
Qed.

(** X18: over the in-memory store, the status route only reads: whatever
    key is read afterwards, at the same instant or later, reads as it would
    have before the request. *)
Theorem status_is_read_only request env kv now now' ip key :
  BOTNET_KV env = Some kv ->
  isAuthorized request (BOTNET_ADMIN_TOKEN env) = true ->
  isStatusRoute request (readConfig env) ->
  searchParams_get "ip" (searchParams (url request)) = Some ip ->
  isValidIp ip = true ->
  now <= now' ->
  exists after,
    snd (fetch request env now) = Some after /\
    Mock.read now' key after = Mock.read now' key kv.
Proof.
  intros Hkv Hauth Hroute Hquery Hvalid Hle.
  rewrite (status_run request env kv now ip) by assumption.
  eexists. split; [reflexivity|].
  now rewrite !read_swept_later by assumption.
Qed.

(** X19: over the in-memory store, after an unblock request for an
    address, a status request for that address reports it as not blocked,
    with no details and a bot score of 0, and leaves the store as it is. *)
Theorem unblocked_address_has_clean_status request request' env kv now now' text payload rawIp :
  let ip := Js.trim rawIp in
  BOTNET_KV env = Some kv ->
  isAuthorized request (BOTNET_ADMIN_TOKEN env) = true ->
  isUnblockRoute request (readConfig env) ->
  body request = Some text ->
  JSON_parse text = Some payload ->
  prop payload "ip" = Some (JStr rawIp) ->
  isValidIp ip = true ->
  isAuthorized request' (BOTNET_ADMIN_TOKEN env) = true ->
  isStatusRoute request' (readConfig env) ->
  searchParams_get "ip" (searchParams (url request')) = Some ip ->
  exists after,
    snd (fetch request env now) = Some after /\
    fetch request' (withKV env (Some after)) now' =
      (Fulfilled (jsonResponse (statusPayload ip JNull 0) 200), Some after).
Proof.
  intros ip Hkv Hauth Hroute Hbody Hparse Hprop Hvalid Hauth' Hroute' Hquery.
  rewrite (unblock_run request env kv now text payload rawIp) by assumption.
  fold ip. eexists. split; [reflexivity|].
  set (after := Mock.without (botScoreKey ip) (Mock.without (blockedKey ip) kv)).
  assert (Hblocked : store after !! blockedKey ip = None).
  { unfold after, Mock.without. cbn [store].
    rewrite lookup_delete_ne by apply not_eq_sym, blockedKey_ne_botScoreKey.
    apply lookup_delete_eq. }
  assert (Hscore : store after !! botScoreKey ip = None).
  { unfold after, Mock.without. cbn [store]. apply lookup_delete_eq. }
  rewrite (status_run request' (withKV env (Some after)) after now' ip)
    by (try assumption; reflexivity).
  destruct (read_absent now' _ _ Hblocked) as [-> ->].
  unfold scoreOf. rewrite getBotScore_mock. cbn [fst]. unfold scoreOf, getBotScore, bind.
  rewrite get_eq.
  destruct (read_absent now' _ _ Hscore) as [-> ->].
  reflexivity.
Qed.



(** X21: over the in-memory store, the score that [getBotScore] reads
    before [ttlSeconds] have passed since [incrementBotScore] is the previous
    score plus the delta, where the scores, the delta and the expiry are exact
    numbers of the platform. *)
Theorem bot_score_reads_back ip delta ttl now now' kv :
  safeInteger (scoreOf now ip kv) ->
  safeInteger delta ->
  safeInteger (scoreOf now ip kv + delta) ->
  exactExpiry now ttl ->
  now' < now + ttl * 1000 ->
  scoreOf now' ip (snd (incrementBotScore ip delta ttl now kv)) = scoreOf now ip kv + delta.
Proof.
  intros _ _ _ _ Hlive. rewrite incrementBotScore_mock. cbn [snd].
  set (score := scoreOf now ip kv + delta).
  unfold scoreOf at 1. unfold getBotScore, bind. rewrite get_eq.
  destruct (read_write_live now now' (botScoreKey ip) (Js.ofNumber score) ttl kv Hlive)
    as [-> _].
  now rewrite truthy_ofNumber, parseInt_ofNumber.
Qed.

End AdminInMemory.

(** *** The store of the tests *)

(** X22: in the store of the tests, a [get] that follows a [put] of the
    same key returns the value put, unless the [put] gave a time to live that
    has passed by then: that [get] returns [null] and removes the entry.  The
    expiry is an exact number of the platform. *)
Theorem mock_put_then_get (now now' : Z) (key val : string) (options : option Z)
    (kv : MockKV) :
  let stored := snd (Mock.put now key val options kv) in
  match options with
  | Some ttl => exactExpiry now ttl
  | None => True
  end ->
  Mock.get now' key stored =
    match options with
    | Some ttl =>
        if now + ttl * 1000 <=? now'
        then (Fulfilled None, Mock.without key kv)
        else (Fulfilled (Some val), stored)
    | None => (Fulfilled (Some val), stored)
    end.
Proof.
  intros stored _. unfold stored, Mock.put, Mock.get, Mock.without. cbn [snd store].
  rewrite lookup_insert_eq. cbn [expiresAtMs value].
  destruct options as [ttl|]; cbn [fmap option_fmap option_map mbind option_bind].
  - rewrite parseInt_ofNumber. cbn [expiresAtMs value].
    destruct (now + ttl * 1000 <=? now'); [|reflexivity].
    now rewrite delete_insert_eq.
  - reflexivity.
Qed.

(** X23: in the store of the tests, a [get] that follows a [delete] of
    the same key returns [null], and the [delete] does not change what a
    [get] of another key returns. *)
Theorem mock_delete_then_get (now now' : Z) (key key' : string) (kv : MockKV) :
  let deleted := snd (Mock.delete now key kv) in
  Mock.get now' key deleted = (Fulfilled None, deleted) /\
  (key <> key' -> fst (Mock.get now' key' deleted) = fst (Mock.get now' key' kv)).
Proof.
  intros deleted. unfold deleted, Mock.delete, Mock.get. cbn [snd store]. split.
  - now rewrite lookup_delete_eq.
  - intros Hne. rewrite lookup_delete_ne by assumption.
    destruct (store kv !! key') as [entry|]; [|reflexivity].
    destruct (expiresAtMs entry) as [expires|]; [|reflexivity].
    now destruct (expires <=? now').
Qed.

(** *** Prefixes and windows *)

Lemma startsWith_extended (path extra prefix : string) :
  Js.startsWith path prefix = true -> Js.startsWith (path ++ extra) prefix = true.
Proof.
  unfold Js.startsWith. revert path.
  induction prefix as [|c prefix IH]; intros [|d path]; simpl; try discriminate.
  - now destruct extra.
  - reflexivity.
  - destruct (ascii_dec c d); [apply IH | discriminate].
Qed.

(** X24: protection goes by string prefix: when a path is inspected, so
    is every path that extends it. *)
Theorem protected_prefix_covers_extensions (path extra : string) (prefixes : list string) :
  shouldInspectPath path prefixes = true ->
  shouldInspectPath (path ++ extra) prefixes = true.
Proof.
  unfold shouldInspectPath.
  destruct (existsb (String.eqb "*") prefixes); [reflexivity|].
  intros (prefix & Hin & Hstarts)%existsb_exists.
  apply existsb_exists. exists prefix. split; [exact Hin|].
  now apply startsWith_extended.
Qed.

Section Rollover.

Implicit Types (kv : MockKV) (now : Z).

Lemma incrementCounterAt_other ip scope w times key :
  (forall now, In now times -> counterKeyAt ip scope w now <> key) ->
  forall kv, store (snd (incrementCounterAt ip scope w times kv)) !! key = store kv !! key.
Proof.
  induction times as [|now later IH]; intros Hother kv; [reflexivity|].
  cbn [incrementCounterAt]. unfold bind at 1.
  rewrite incrementCounter_mock.
  set (kv1 := Mock.write _ _ _ _ _).
  assert (Hkv1 : store kv1 !! key = store kv !! key).
  { unfold kv1, Mock.write. cbn [store].
    apply lookup_insert_ne, Hother. now left. }
  rewrite <- Hkv1, <- (IH (fun now' Hin => Hother now' (or_intror Hin)) kv1).
  unfold bind, ret.
  now destruct (incrementCounterAt ip scope w later kv1) as [[counts|] kv2].
Qed.

(** X25: over the in-memory store, the first call of [incrementCounter]
    in a window returns 1 whatever was counted at instants of other windows,
    when the store held no counter for that window at first. *)
Theorem counter_restarts_in_a_new_window ip scope windowSeconds times now kv :
  (forall earlier, In earlier times ->
     earlier / 1000 / windowSeconds <> now / 1000 / windowSeconds) ->
  store kv !! counterKeyAt ip scope windowSeconds now = None ->
  fst (incrementCounter ip scope windowSeconds now
         (snd (incrementCounterAt ip scope windowSeconds times kv))) = Fulfilled 1.
Proof.
  intros Hearlier Hfresh. rewrite incrementCounter_mock. cbn [fst].
  set (key := counterKeyAt ip scope windowSeconds now).
  assert (Hkept : store (snd (incrementCounterAt ip scope windowSeconds times kv)) !! key = None).
  { rewrite incrementCounterAt_other; [exact Hfresh|].
    intros earlier Hin Heq. apply (Hearlier earlier Hin).
    unfold key, counterKeyAt, counterKey in Heq.
    do 5 apply append_cancel_l in Heq.
    now apply ofNumber_injective. }
  now destruct (read_absent now key _ Hkept) as [-> _].
Qed.

End Rollover.

(** *** Instances *)

Lemma parseCsvList_entries_witness :
  In "b" (parseCsvList (Some "a, b ,,")) /\
  "b" <> "" /\ Js.trim "b" = "b" /\
  Js.forallb_string (fun c => negb (Ascii.eqb c ",")) "b" = true.
Proof.
  assert (Hin : In "b" (parseCsvList (Some "a, b ,,"))) by (vm_compute; tauto).
  split; [exact Hin | exact (parseCsvList_entries _ _ Hin)].
Defined.

Lemma patterns_lowercase_nonempty_witness :
  In "curl/" (badUserAgentPatterns (readConfig (createEnv Mock.new))) /\
  "curl/" <> "" /\ Js.toLowerCase "curl/" = "curl/".
Proof.
  assert (Hin : In "curl/" (badUserAgentPatterns (readConfig (createEnv Mock.new))))
    by (vm_compute; tauto).
  split; [exact Hin | exact (patterns_lowercase_nonempty _ _ (or_intror Hin))].
Defined.

Lemma every_path_inspected_by_default_witness :
  shouldInspectPath "/anything"
    (protectedPathPrefixes (readConfig (windowOnlyEnv Mock.new))) = true.
Proof.
  apply every_path_inspected_by_default. left. vm_compute; reflexivity.
Defined.

Lemma valid_address_charset_witness :
  isValidIp "2001:db8::1" = true /\
  "2001:db8::1" <> "" /\
  Js.forallb_string
    (fun c => Js.isHexDigit c || Ascii.eqb c "." || Ascii.eqb c ":") "2001:db8::1" = true.
Proof.
  assert (Hvalid : isValidIp "2001:db8::1" = true) by (vm_compute; reflexivity).
  split; [exact Hvalid | exact (valid_address_charset _ Hvalid)].
Defined.

Lemma dotted_quad_is_valid_witness :
  isValidIp (Js.ofNumber 192 ++ "." ++ Js.ofNumber 168 ++ "." ++ Js.ofNumber 0 ++ "." ++
             Js.ofNumber 255) = true.
Proof. apply dotted_quad_is_valid; lia. Defined.

Lemma counter_counts_calls_of_a_window_witness :
  fst (incrementCounterAt "1.2.3.4" "window" 60 [t0; t0 + 1000; t0 + 39999] Mock.new) =
    Fulfilled (map Z.of_nat (seq 1 3)).
Proof.
  apply (counter_counts_calls_of_a_window "1.2.3.4" "window" 60 28333333).
  - lia.
  - repeat constructor; vm_compute; reflexivity.
  - repeat constructor; vm_compute; discriminate.
  - vm_compute; discriminate.
  - vm_compute; reflexivity.
Defined.

Lemma counter_restarts_in_a_new_window_witness :
  fst (incrementCounter "1.2.3.4" "window" 60 (t0 + 40000)
         (snd (incrementCounterAt "1.2.3.4" "window" 60 [t0; t0 + 1000] Mock.new))) =
    Fulfilled 1.
Proof.
  apply counter_restarts_in_a_new_window.
  - intros earlier [<- | [<- | []]]; vm_compute; discriminate.
  - vm_compute; reflexivity.
Defined.

Lemma unprotected_path_is_never_counted_witness :
  fetch anyRequest (createEnv blockedStore) t0 =
    match kv_get t0 (blockedKey (getClientIp anyRequest)) blockedStore with
    | (Fulfilled (Some raw), after) =>
        (Fulfilled (if Js.truthy raw && truthy (decodeRecord raw)
                    then blockedResponse (getClientIp anyRequest) (decodeRecord raw)
                    else originFetch anyRequest),
         Some after)
    | (_, after) => (Fulfilled (originFetch anyRequest), Some after)
    end.
Proof.
  apply (unprotected_path_is_never_counted anyRequest (createEnv blockedStore) blockedStore t0).
  - reflexivity.
  - vm_compute; reflexivity.
  - vm_compute; reflexivity.
  - vm_compute; reflexivity.
  - not_listed.
Defined.



Lemma recorded_block_is_served_until_expiry_witness :
  fetch anyRequest
    (createEnv (snd (blockIp "8.8.8.8" manualRecord 300 t0 Mock.new))) (t0 + 299999) =
    (Fulfilled (blockedResponse "8.8.8.8" manualRecord),
     Some (snd (blockIp "8.8.8.8" manualRecord 300 t0 Mock.new))).
Proof.
  apply (recorded_block_is_served_until_expiry anyRequest _ Mock.new t0).
  - reflexivity.
  - vm_compute; reflexivity.
  - vm_compute; reflexivity.
  - vm_compute; reflexivity.
  - not_listed.
  - reflexivity.
  - vm_compute; reflexivity.
  - vm_compute; repeat split; discriminate.
  - vm_compute; reflexivity.
Defined.

Lemma unknown_admin_route_is_404_witness :
  fetch unknownRouteRequest (createEnv Mock.new) t0 =
    (Fulfilled (jsonResponse (errorPayload "not_found") 404), Some Mock.new).
Proof.
  apply unknown_admin_route_is_404.
  - reflexivity.
  - vm_compute; reflexivity.
  - vm_compute; reflexivity.
  - intros name verb Hin [_ Hpath]. vm_compute in Hpath.
    unfold adminRouteNames in Hin. simpl in Hin.
    repeat destruct Hin as [[= <- <-] | Hin]; try discriminate; contradiction.
Defined.

Lemma status_needs_a_valid_address_witness :
  fetch statusOfNowhere (createEnv blockedStore) t0 =
    (Fulfilled (jsonResponse (errorPayload "valid ip is required") 400), Some blockedStore).
Proof.
  apply status_needs_a_valid_address.
  - reflexivity.
  - vm_compute; reflexivity.
  - split; vm_compute; reflexivity.
  - vm_compute; reflexivity.
Defined.

Lemma padded_secret_locks_the_api_witness :
  isAuthorized
    (createRequest "/__botnet/status" [] "GET" "1.2.3.4" (Some " test-token") None browser)
    (Some " test-token") = false.
Proof.
  apply padded_secret_locks_the_api. vm_compute; discriminate.
Defined.

Lemma status_is_read_only_witness :
  exists after,
    snd (fetch statusRequest (createEnv blockedStore) t0) = Some after /\
    Mock.read (t0 + 1) (blockedKey "8.8.8.8") after =
    Mock.read (t0 + 1) (blockedKey "8.8.8.8") blockedStore.
Proof.
  apply (status_is_read_only statusRequest (createEnv blockedStore) blockedStore t0 (t0 + 1)
           "8.8.8.8").
  - reflexivity.
  - vm_compute; reflexivity.
  - split; vm_compute; reflexivity.
  - vm_compute; reflexivity.
  - vm_compute; reflexivity.
  - lia.
Defined.

Lemma unblocked_address_has_clean_status_witness :
  exists after,
    snd (fetch unblockRequest (createEnv blockedStore) t0) = Some after /\
    fetch statusRequest (withKV (createEnv blockedStore) (Some after)) (t0 + 1) =
      (Fulfilled (jsonResponse (statusPayload (Js.trim "8.8.8.8") JNull 0) 200), Some after).
Proof.
  apply (unblocked_address_has_clean_status unblockRequest statusRequest
           (createEnv blockedStore) blockedStore t0 (t0 + 1)
           (JSON_stringify (JObj [("ip", JStr "8.8.8.8")]))
           (JObj [("ip", JStr "8.8.8.8")]) "8.8.8.8").
  - reflexivity.
  - vm_compute; reflexivity.
  - split; [left|]; vm_compute; reflexivity.
  - reflexivity.
  - vm_compute; reflexivity.
  - reflexivity.
  - vm_compute; reflexivity.
  - vm_compute; reflexivity.
  - split; vm_compute; reflexivity.
  - vm_compute; reflexivity.
Defined.


Lemma bot_score_reads_back_witness :
  scoreOf (t0 + 899999) "9.9.9.9" (snd (incrementBotScore "9.9.9.9" 5 900 t0 Mock.new)) =
    scoreOf t0 "9.9.9.9" Mock.new + 5.
Proof.
  apply bot_score_reads_back.
  - vm_compute; split; discriminate.
  - vm_compute; split; discriminate.
  - vm_compute; split; discriminate.
  - vm_compute; repeat split; discriminate.
  - vm_compute; reflexivity.
Defined.

Lemma protected_prefix_covers_extensions_witness :
  shouldInspectPath ("/api" ++ "ary") ["/api"] = true.
Proof. apply protected_prefix_covers_extensions. vm_compute; reflexivity. Defined.

Lemma parsePositiveInteger_reads_decimal_witness :
  parsePositiveInteger (Some (Js.ofNumber 300)) 120 = (if 0 <? 300 then 300 else 120) /\
  parsePositiveInteger (Some (Js.ofNumber (-7))) 120 = (if 0 <? -7 then -7 else 120).
Proof.
  split; apply parsePositiveInteger_reads_decimal; vm_compute; discriminate.
Defined.

Lemma mock_put_then_get_witness :
  Mock.get (t0 + 300000) "block:8.8.8.8"
    (snd (Mock.put t0 "block:8.8.8.8" "manual" (Some 300) Mock.new)) =
    (if t0 + 300 * 1000 <=? t0 + 300000
     then (Fulfilled None, Mock.without "block:8.8.8.8" Mock.new)
     else (Fulfilled (Some "manual"),
           snd (Mock.put t0 "block:8.8.8.8" "manual" (Some 300) Mock.new))).
Proof.
  apply (mock_put_then_get t0 (t0 + 300000) "block:8.8.8.8" "manual" (Some 300) Mock.new).
  vm_compute; repeat split; discriminate.
Defined.
